(** * Clinical-notes tools of m4: capability gate, note search, retrieval, listing

    A shallow embedding of [src/m4/core/tools/notes.py] (the three tool
    classes [SearchNotesTool], [GetNoteTool], [ListPatientNotesTool]) and of
    the SQL expressions those tools send to the query backend.

    Conventions.
    - A Python [str] is a [string]: a sequence of characters with code
      points below 256.  [lower] is [str.lower] on that range.
    - A Python [int] is a [Z]; [int | None] is [option Z].
    - A [frozenset] is a [gset].
    - The query backend ([m4.core.backends]) is not part of the modelled
      files.  It is a parameter: a state type and a function that answers a
      query either with a result object or by raising an exception. *)

From Stdlib Require Import ZArith Ascii String List Lia Bool.
From Stdlib Require Import Numbers.DecimalString.
From stdpp Require Import base gmap strings.

Import ListNotations.
Local Open Scope string_scope.
Local Open Scope list_scope.

(** ** Python string primitives *)

Module PyStr.

(** Code point of a character. *)
Definition ord (c : ascii) : N := N_of_ascii c.

(** [str.lower] on one character: A..Z and the Latin-1 capitals
    U+00C0..U+00DE (the multiplication sign U+00D7 apart) move up by 32. *)
Definition lower_char (c : ascii) : ascii :=
  let n := ord c in
  if ((65 <=? n) && (n <=? 90) ||
      (192 <=? n) && (n <=? 222) && negb (n =? 215))%N
  then ascii_of_N (n + 32) else c.

(** [str.upper] on one character of the ASCII range (the source applies
    it to the table names only). *)
Definition upper_char (c : ascii) : ascii :=
  let n := ord c in
  if ((97 <=? n) && (n <=? 122))%N then ascii_of_N (n - 32) else c.

Fixpoint lower (s : string) : string :=
  match s with
  | EmptyString => EmptyString
  | String c r => String (lower_char c) (lower r)
  end.

Fixpoint upper (s : string) : string :=
  match s with
  | EmptyString => EmptyString
  | String c r => String (upper_char c) (upper r)
  end.

(** [s.replace(c, by)] for a one-character pattern [c]. *)
Fixpoint replace_char (c : ascii) (by_ : string) (s : string) : string :=
  match s with
  | EmptyString => EmptyString
  | String x r =>
      if Ascii.eqb x c then by_ +:+ replace_char c by_ r
      else String x (replace_char c by_ r)
  end.

(** [s.startswith(p)]. *)
Fixpoint startswith (p s : string) : bool :=
  match p, s with
  | EmptyString, _ => true
  | String _ _, EmptyString => false
  | String a p', String b s' => Ascii.eqb a b && startswith p' s'
  end.

(** [s.find(needle)]: offset of the first occurrence, [None] for -1. *)
Fixpoint find (needle s : string) : option nat :=
  if startswith needle s then Some 0
  else match s with
       | EmptyString => None
       | String _ r => option_map S (find needle r)
       end.

(** [needle in s]. *)
Definition contains (needle s : string) : bool :=
  match find needle s with Some _ => true | None => false end.

(** Truth value of a string: non-empty. *)
Definition truthy (s : string) : bool :=
  match s with EmptyString => false | String _ _ => true end.

(** [len(s)]. *)
Definition len (s : string) : Z := Z.of_nat (String.length s).

Fixpoint take (n : nat) (s : string) : string :=
  match n, s with
  | S n', String c r => String c (take n' r)
  | _, _ => EmptyString
  end.

Fixpoint drop (n : nat) (s : string) : string :=
  match n, s with
  | S n', String _ r => drop n' r
  | _, _ => s
  end.

(** The slice [s[:n]]: a negative bound counts from the end. *)
Definition slice_to (s : string) (n : Z) : string :=
  if (n <? 0)%Z then take (Z.to_nat (len s + n)) s
  else take (Z.to_nat n) s.

(** [sep.join(l)]. *)
Definition join (sep : string) (l : list string) : string :=
  String.concat sep l.

(** [str(n)] for an integer, as an f-string interpolates it. *)
Definition of_int (n : Z) : string :=
  NilZero.string_of_int (Z.to_int n).

(** The newline character. *)
Definition nl : string := String (ascii_of_N 10) EmptyString.

End PyStr.

Import PyStr.

(** ** Dataset and tool descriptors *)

(** Modelled from the spec: the enum [Modality] of [m4.core.datasets] is not
    among the modelled files; the spec names the capability tags "notes"
    and "tabular", and the tools refer to [Modality.NOTES]. *)
Inductive Modality : Type := TABULAR | NOTES.

#[global] Instance Modality_eq_dec : EqDecision Modality.
Proof. solve_decision. Defined.

#[global] Instance Modality_countable : Countable Modality.
Proof.
  refine (inj_countable' (fun m => match m with TABULAR => false | NOTES => true end)
                         (fun b => if b then NOTES else TABULAR) _).
  intros []; reflexivity.
Defined.

(** [DatasetDefinition]: the two attributes the tools read. *)
Record DatasetDefinition : Type := {
  name : string;
  modalities : gset Modality
}.

(** The class attributes every tool class declares. *)
Record ToolClass : Type := {
  tool_name : string;
  required_modalities : gset Modality;
  supported_datasets : option (gset string)
}.

(** Truth value of [frozenset | None]: [None] and the empty set are false. *)
Definition truthy_set (o : option (gset string)) : bool :=
  match o with
  | None => false
  | Some s => negb (bool_decide (s = ∅))
  end.

(** [name not in supported_datasets], evaluated only behind [truthy_set]. *)
Definition not_in_set (x : string) (o : option (gset string)) : bool :=
  match o with
  | None => true
  | Some s => negb (bool_decide (x ∈ s))
  end.

(** [is_compatible], the same text in the three tool classes. *)
Definition is_compatible (self : ToolClass) (dataset : DatasetDefinition) : bool :=
  if truthy_set (supported_datasets self)
     && not_in_set (name dataset) (supported_datasets self)
  then false
  else if negb (bool_decide (required_modalities self ⊆ modalities dataset))
  then false
  else true.

Definition search_notes_tool : ToolClass :=
  {| tool_name := "search_notes";
     required_modalities := {[ NOTES ]};
     supported_datasets := None |}.

Definition get_note_tool : ToolClass :=
  {| tool_name := "get_note";
     required_modalities := {[ NOTES ]};
     supported_datasets := None |}.

Definition list_patient_notes_tool : ToolClass :=
  {| tool_name := "list_patient_notes";
     required_modalities := {[ NOTES ]};
     supported_datasets := None |}.

Definition note_tools : list ToolClass :=
  [search_notes_tool; get_note_tool; list_patient_notes_tool].

(** ** The query backend and the effect of calling it *)

(** What [backend.execute_query] hands back: the tools read [success] and
    [data] of the result object. *)
Record QueryResult : Type := {
  success : bool;
  data : string
}.

(** A call either returns a result or raises; [Raised e] carries [str(e)]. *)
Inductive Outcome : Type :=
| Returned (r : QueryResult)
| Raised (e : string).

(** The backend object [get_backend()] returns.  Its store [World] may change
    with every query; [get_backend_info] reads it and is taken to return. *)
Record Backend : Type := {
  World : Type;
  execute_query : string -> DatasetDefinition -> World -> Outcome * World;
  get_backend_info : DatasetDefinition -> World -> string
}.

(** One call of [execute_query]: the statement sent and what came back. *)
Record Event : Type := {
  ev_sql : string;
  ev_outcome : Outcome
}.

Record ToolOutput : Type := { result : string }.

Section Effects.
Context (B : Backend).

(** The backend's store, with the calls made so far (a ghost log). *)
Record State : Type := {
  world : World B;
  issued : list Event
}.

Definition M (A : Type) : Type := State -> A * State.

Definition ret {A} (a : A) : M A := fun s => (a, s).

Definition bind {A C} (m : M A) (k : A -> M C) : M C :=
  fun s => let (a, s') := m s in k a s'.

(** [backend.execute_query(sql, dataset)] under [try]: the exception, if
    any, is handed to the caller as a value. *)
Definition execute (sql : string) (dataset : DatasetDefinition) : M Outcome :=
  fun s =>
    let (o, w) := execute_query B sql dataset (world s) in
    (o, {| world := w;
           issued := issued s ++ [ {| ev_sql := sql; ev_outcome := o |} ] |}).

Definition backend_info (dataset : DatasetDefinition) : M string :=
  fun s => (get_backend_info B dataset (world s), s).

(** A call starts with an empty log. *)
Definition start (w : World B) : State := {| world := w; issued := [] |}.

End Effects.

Arguments ret {B A} a.
Arguments bind {B A C} m k.
Arguments execute {B} sql dataset.
Arguments backend_info {B} dataset.
Arguments start {B} w.
Arguments world {B} s.
Arguments issued {B} s.

Notation "'let!' x ':=' m 'in' k" := (bind m (fun x => k))
  (at level 10, x name, m at level 100, k at level 200).

(** [not l] for a list. *)
Definition is_nil {A} (l : list A) : bool :=
  match l with [] => true | _ :: _ => false end.

(** ** [SearchNotesTool] *)

Module SearchNotesTool.

Record SearchNotesInput : Type := {
  query : string;
  note_type : string;
  limit : Z;
  snippet_length : Z
}.

Definition _get_tables_for_type (note_type : string) : list string :=
  let note_type := lower note_type in
  if String.eqb note_type "discharge" then ["discharge"]
  else if String.eqb note_type "radiology" then ["radiology"]
  else if String.eqb note_type "all" then ["discharge"; "radiology"]
  else [].

(** The statement built for one table ([search_term] is the query with its
    single quotes doubled). *)
Definition sql (params : SearchNotesInput) (search_term table : string) : string :=
  "
                SELECT
                    note_id,
                    subject_id,
                    CASE
                        WHEN POSITION(LOWER('" +:+ search_term +:+ "') IN LOWER(text)) > 0 THEN
                            SUBSTRING(
                                text,
                                GREATEST(1, POSITION(LOWER('" +:+ search_term +:+ "') IN LOWER(text)) - "
    +:+ of_int (snippet_length params / 2) +:+ "),
                                " +:+ of_int (snippet_length params) +:+ "
                            )
                        ELSE LEFT(text, " +:+ of_int (snippet_length params) +:+ ")
                    END as snippet,
                    LENGTH(text) as note_length
                FROM " +:+ table +:+ "
                WHERE LOWER(text) LIKE '%" +:+ lower search_term +:+ "%'
                LIMIT " +:+ of_int (limit params) +:+ "
            ".

(** [results.append(...)] for a table whose query returned rows. *)
Definition rows_entry (table payload : string) : string :=
  nl +:+ "**" +:+ upper table +:+ ":**" +:+ nl +:+ payload.

(** [results.append(...)] in the [except] branch. *)
Definition error_entry (table e : string) : string :=
  nl +:+ "**" +:+ upper table +:+ ":** Error - " +:+ e.

(** What the body of the loop appends for one table, given how its query
    ended. *)
Definition appended (table : string) (o : Outcome) : list string :=
  match o with
  | Returned r =>
      if success r && truthy (data r) then [rows_entry table (data r)] else []
  | Raised e => [error_entry table e]
  end.

Definition invalid_note_type (backend_info note_type : string) : string :=
  backend_info +:+ nl +:+ "**Error:** Invalid note_type '" +:+ note_type +:+ "'. "
    +:+ "Use 'discharge', 'radiology', or 'all'.".

Definition no_matches (backend_info query : string) (tables : list string) : string :=
  backend_info +:+ nl +:+ "**No matches found** for '" +:+ query +:+ "' "
    +:+ "in " +:+ join ", " tables +:+ ".".

Definition report (backend_info : string) (params : SearchNotesInput)
    (results : list string) : string :=
  backend_info +:+ nl
    +:+ "**Search:** '" +:+ query params +:+ "' (showing snippets of ~"
    +:+ of_int (snippet_length params) +:+ " chars)" +:+ nl
    +:+ join EmptyString results +:+ nl +:+ nl
    +:+ "**Tip:** Use `get_note(note_id)` to retrieve full text of a specific note.".

Section WithBackend.
Context {B : Backend}.

(** The [for table in tables_to_search] loop; [results] is the list the
    source appends to. *)
Fixpoint search_tables (dataset : DatasetDefinition) (params : SearchNotesInput)
    (search_term : string) (tables : list string) (results : list string)
    : M B (list string) :=
  match tables with
  | [] => ret results
  | table :: rest =>
      let! o := execute (sql params search_term table) dataset in
      search_tables dataset params search_term rest (results ++ appended table o)
  end.

Definition invoke (dataset : DatasetDefinition) (params : SearchNotesInput)
    : M B ToolOutput :=
  let! info := backend_info dataset in
  let tables_to_search := _get_tables_for_type (note_type params) in
  if is_nil tables_to_search then
    ret {| result := invalid_note_type info (note_type params) |}
  else
    let search_term := replace_char "'" "''" (query params) in
    let! results := search_tables dataset params search_term tables_to_search [] in
    if is_nil results then
      ret {| result := no_matches info (query params) tables_to_search |}
    else
      ret {| result := report info params results |}.

End WithBackend.

End SearchNotesTool.

(** ** [GetNoteTool] *)

Module GetNoteTool.

Record GetNoteInput : Type := {
  note_id : string;
  max_length : option Z
}.

(** The tables tried, in the order of the source's list literal. *)
Definition tables : list string := ["discharge"; "radiology"].

(** The statement built for one table ([note_id] with its quotes doubled). *)
Definition sql (note_id table : string) : string :=
  "
                SELECT
                    note_id,
                    subject_id,
                    text,
                    LENGTH(text) as note_length
                FROM " +:+ table +:+ "
                WHERE note_id = '" +:+ note_id +:+ "'
                LIMIT 1
            ".

(** The test that a result holds the note. *)
Definition found (r : QueryResult) : bool :=
  success r && truthy (data r) && contains "note_id" (lower (data r)).

Definition truncated_note (backend_info : string) (n : Z) (payload : string) : string :=
  backend_info +:+ nl +:+ "**Note (truncated to " +:+ of_int n +:+ " chars):**" +:+ nl
    +:+ slice_to payload n +:+ nl +:+ nl +:+ "[...truncated...]".

Definition full_note (backend_info payload : string) : string :=
  backend_info +:+ nl +:+ payload.

(** The response for a result that holds the note. *)
Definition render (backend_info : string) (params : GetNoteInput)
    (payload : string) : string :=
  match max_length params with
  | Some n =>
      (* [params.max_length and len(result.data) > params.max_length] *)
      if negb (n =? 0)%Z && (len payload >? n)%Z
      then truncated_note backend_info n payload
      else full_note backend_info payload
  | None => full_note backend_info payload
  end.

Definition not_found (backend_info note_id : string) : string :=
  backend_info +:+ nl +:+ "**Error:** Note '" +:+ note_id +:+ "' not found. "
    +:+ "Use `list_patient_notes(subject_id)` or `search_notes(query)` "
    +:+ "to find valid note IDs.".

Section WithBackend.
Context {B : Backend}.

(** The [for table in [...]] loop: [Some] is the [return] inside it,
    [None] is falling out of the loop. *)
Fixpoint try_tables (dataset : DatasetDefinition) (params : GetNoteInput)
    (info note_id : string) (tables : list string) : M B (option ToolOutput) :=
  match tables with
  | [] => ret None
  | table :: rest =>
      let! o := execute (sql note_id table) dataset in
      match o with
      | Returned r =>
          if found r then ret (Some {| result := render info params (data r) |})
          else try_tables dataset params info note_id rest
      | Raised _ => try_tables dataset params info note_id rest
      end
  end.

Definition invoke (dataset : DatasetDefinition) (params : GetNoteInput)
    : M B ToolOutput :=
  let! info := backend_info dataset in
  let note_id' := replace_char "'" "''" (note_id params) in
  let! r := try_tables dataset params info note_id' tables in
  match r with
  | Some out => ret out
  | None => ret {| result := not_found info (note_id params) |}
  end.

End WithBackend.

End GetNoteTool.

(** ** [ListPatientNotesTool] *)

Module ListPatientNotesTool.

Record ListPatientNotesInput : Type := {
  subject_id : Z;
  note_type : string;
  limit : Z
}.

Definition _get_tables_for_type (note_type : string) : list string :=
  let note_type := lower note_type in
  if String.eqb note_type "discharge" then ["discharge"]
  else if String.eqb note_type "radiology" then ["radiology"]
  else if String.eqb note_type "all" then ["discharge"; "radiology"]
  else [].

Definition sql (params : ListPatientNotesInput) (table : string) : string :=
  "
                SELECT
                    note_id,
                    subject_id,
                    '" +:+ table +:+ "' as note_type,
                    LENGTH(text) as note_length,
                    LEFT(text, 100) as preview
                FROM " +:+ table +:+ "
                WHERE subject_id = " +:+ of_int (subject_id params) +:+ "
                LIMIT " +:+ of_int (limit params) +:+ "
            ".

Definition rows_entry (table payload : string) : string :=
  nl +:+ "**" +:+ upper table +:+ " NOTES:**" +:+ nl +:+ payload.

Definition error_entry (table e : string) : string :=
  nl +:+ "**" +:+ upper table +:+ ":** Error - " +:+ e.

Definition appended (table : string) (o : Outcome) : list string :=
  match o with
  | Returned r =>
      if success r && truthy (data r) then [rows_entry table (data r)] else []
  | Raised e => [error_entry table e]
  end.

Definition invalid_note_type (backend_info note_type : string) : string :=
  backend_info +:+ nl +:+ "**Error:** Invalid note_type '" +:+ note_type +:+ "'. "
    +:+ "Use 'discharge', 'radiology', or 'all'.".

Definition no_notes (backend_info : string) (subject_id : Z) : string :=
  backend_info +:+ nl +:+ "**No notes found** for subject_id " +:+ of_int subject_id
    +:+ "." +:+ nl +:+ nl
    +:+ "**Tip:** Verify the subject_id exists in the related MIMIC-IV dataset.".

Definition report (backend_info : string) (params : ListPatientNotesInput)
    (results : list string) : string :=
  backend_info +:+ nl
    +:+ "**Notes for subject_id " +:+ of_int (subject_id params) +:+ ":**" +:+ nl
    +:+ join EmptyString results +:+ nl +:+ nl
    +:+ "**Tip:** Use `get_note(note_id)` to retrieve full text of a specific note.".

(** [all("no rows" in r.lower() for r in results)]. *)
Definition all_no_rows (results : list string) : bool :=
  forallb (fun r => contains "no rows" (lower r)) results.

Section WithBackend.
Context {B : Backend}.

Fixpoint query_tables (dataset : DatasetDefinition) (params : ListPatientNotesInput)
    (tables : list string) (results : list string) : M B (list string) :=
  match tables with
  | [] => ret results
  | table :: rest =>
      let! o := execute (sql params table) dataset in
      query_tables dataset params rest (results ++ appended table o)
  end.

Definition invoke (dataset : DatasetDefinition) (params : ListPatientNotesInput)
    : M B ToolOutput :=
  let! info := backend_info dataset in
  let tables_to_query := _get_tables_for_type (note_type params) in
  if is_nil tables_to_query then
    ret {| result := invalid_note_type info (note_type params) |}
  else
    let! results := query_tables dataset params tables_to_query [] in
    if is_nil results || all_no_rows results then
      ret {| result := no_notes info (subject_id params) |}
    else
      ret {| result := report info params results |}.

End WithBackend.

End ListPatientNotesTool.

(** ** The SQL the search statement is written in

    The functions the statement of [SearchNotesTool.sql] calls, with their
    standard meaning on character strings: positions count from 1, lengths
    are non-negative (what an engine does with a negative length is its own
    affair and is not modelled; [Z.to_nat] makes the functions total). *)

Module Sql.

Definition quote : ascii := "'"%char.

(** The value of a string literal with body [body]: a doubled quote stands
    for one quote. *)
Fixpoint literal (body : string) : string :=
  match body with
  | EmptyString => EmptyString
  | String a r =>
      if Ascii.eqb a quote then
        match r with
        | String b r' =>
            if Ascii.eqb b quote then String quote (literal r')
            else String a (literal r)
        | EmptyString => String a EmptyString
        end
      else String a (literal r)
  end.

Definition LOWER (s : string) : string := lower s.

Definition LENGTH (s : string) : Z := len s.

Definition GREATEST (a b : Z) : Z := Z.max a b.

(** [POSITION(sub IN s)]: 1-based place of the first occurrence, 0 if none. *)
Definition POSITION (sub s : string) : Z :=
  match find sub s with
  | Some p => Z.of_nat p + 1
  | None => 0
  end.

(** [SUBSTRING(s, start, n)]: the characters at places [start] to
    [start + n - 1] that exist (places below 1 hold nothing). *)
Definition SUBSTRING (s : string) (start n : Z) : string :=
  let first := Z.max start 1 in
  take (Z.to_nat (start + n - first)) (drop (Z.to_nat (first - 1)) s).

(** [LEFT(s, n)]. *)
Definition LEFT (s : string) (n : Z) : string := take (Z.to_nat n) s.

(** [s LIKE pat] without an ESCAPE clause: [%] stands for any run of
    characters, [_] for any one character. *)
Fixpoint LIKE_from (pat : string) : string -> bool :=
  match pat with
  | EmptyString => fun s => negb (truthy s)
  | String c pat' =>
      if Ascii.eqb c "%" then
        fix any (s : string) : bool :=
          LIKE_from pat' s
          || match s with
             | EmptyString => false
             | String _ s' => any s'
             end
      else if Ascii.eqb c "_" then
        fun s => match s with
                 | EmptyString => false
                 | String _ s' => LIKE_from pat' s'
                 end
      else
        fun s => match s with
                 | EmptyString => false
                 | String x s' => Ascii.eqb x c && LIKE_from pat' s'
                 end
  end.

Definition LIKE (s pat : string) : bool := LIKE_from pat s.

End Sql.

(** ** What the search statement computes on a table of notes *)

Module SearchStatement.
Import SearchNotesTool.

(** A row of a note table. *)
Record Note : Type := {
  note_id : string;
  subject_id : Z;
  text : string
}.

(** A row of the statement's result. *)
Record Row : Type := {
  row_note_id : string;
  row_subject_id : Z;
  snippet : string;
  note_length : Z
}.

(** The [CASE ... END as snippet] column; [term] is the text between the
    quotes of the two literals, [half] and [n] the two interpolated
    integers. *)
Definition snippet_column (term : string) (half n : Z) (text : string) : string :=
  if (Sql.POSITION (Sql.LOWER (Sql.literal term)) (Sql.LOWER text) >? 0)%Z then
    Sql.SUBSTRING text
      (Sql.GREATEST 1
         (Sql.POSITION (Sql.LOWER (Sql.literal term)) (Sql.LOWER text) - half))
      n
  else Sql.LEFT text n.

(** The [WHERE] clause; [lowered_term] is the text interpolated between
    the two [%]. *)
Definition where_clause (lowered_term : string) (text : string) : bool :=
  Sql.LIKE (Sql.LOWER text) (Sql.literal ("%" +:+ lowered_term +:+ "%")).

(** The statement [sql params search_term table] on the rows of [table]. *)
Definition run (params : SearchNotesInput) (search_term : string)
    (rows : list Note) : list Row :=
  firstn (Z.to_nat (limit params))
    (map (fun r =>
            {| row_note_id := note_id r;
               row_subject_id := subject_id r;
               snippet := snippet_column search_term (snippet_length params / 2)
                            (snippet_length params) (text r);
               note_length := Sql.LENGTH (text r) |})
         (List.filter (fun r => where_clause (lower search_term) (text r)) rows)).


End SearchStatement.

(** ** Notions used to state the properties *)

(** The statements [sqls] sent one after the other from store [w]: what
    each call gave back, and the store afterwards. *)
Fixpoint run_queries (B : Backend) (dataset : DatasetDefinition)
    (sqls : list string) (w : World B) : list Outcome * World B :=
  match sqls with
  | [] => ([], w)
  | q :: rest =>
      let (o, w1) := execute_query B q dataset w in
      let (os, w2) := run_queries B dataset rest w1 in
      (o :: os, w2)
  end.

Arguments run_queries {B} dataset sqls w.

(** The log entries of such a run. *)
Definition events (sqls : list string) (os : list Outcome) : list Event :=
  zip_with Build_Event sqls os.

(** The payload of a call that holds the note, if it does. *)
Definition note_of (o : Outcome) : option string :=
  match o with
  | Returned r => if GetNoteTool.found r then Some (data r) else None
  | Raised _ => None
  end.

(** A selector that names no table, whatever its case. *)
Definition unknown_note_type (nt : string) : Prop :=
  lower nt <> "discharge" /\ lower nt <> "radiology" /\ lower nt <> "all".



(** ** Example backends and inputs *)

(** A backend that plays back a script: each query takes the next outcome,
    and raises once the script is used up. *)
Definition scripted (info : string) : Backend :=
  {| World := list Outcome;
     execute_query := fun _ _ w =>
       match w with
       | [] => (Raised "connection closed", [])
       | o :: rest => (o, rest)
       end;
     get_backend_info := fun _ _ => info |}.

Definition rows (payload : string) : Outcome :=
  Returned {| success := true; data := payload |}.

Definition failure (payload : string) : Outcome :=
  Returned {| success := false; data := payload |}.

Definition notes_dataset : DatasetDefinition :=
  {| name := "mimic-iv-note"; modalities := {[ NOTES ]} |}.

Definition tabular_dataset : DatasetDefinition :=
  {| name := "mimic-iv-demo"; modalities := {[ TABULAR ]} |}.

Definition sepsis_search : SearchNotesTool.SearchNotesInput :=
  {| SearchNotesTool.query := "sepsis";
     SearchNotesTool.note_type := "all";
     SearchNotesTool.limit := 5;
     SearchNotesTool.snippet_length := 300 |}.

Definition unknown_patient : ListPatientNotesTool.ListPatientNotesInput :=
  {| ListPatientNotesTool.subject_id := 999999999;
     ListPatientNotesTool.note_type := "all";
     ListPatientNotesTool.limit := 20 |}.





(** ** The other two statements on a table of notes *)

Module GetStatement.
Import SearchStatement.

(** A row of the statement's result. *)
Record Row : Type := {
  row_note_id : string;
  row_subject_id : Z;
  row_text : string;
  note_length : Z
}.

(** The statement [GetNoteTool.sql note_id table] on the rows of [table];
    [note_id] is the text between the quotes of its literal. *)
Definition run (note_id : string) (rows : list Note) : list Row :=
  firstn 1
    (map (fun r =>
            {| row_note_id := SearchStatement.note_id r;
               row_subject_id := subject_id r;
               row_text := text r;
               note_length := Sql.LENGTH (text r) |})
         (List.filter (fun r => String.eqb (SearchStatement.note_id r) (Sql.literal note_id))
            rows)).


End GetStatement.

Module ListStatement.
Import SearchStatement.

(** A row of the statement's result. *)
Record Row : Type := {
  row_note_id : string;
  row_subject_id : Z;
  row_note_type : string;
  note_length : Z;
  preview : string
}.

(** The statement [ListPatientNotesTool.sql params table] on the rows of
    [table]. *)
Definition run (params : ListPatientNotesTool.ListPatientNotesInput)
    (table : string) (rows : list Note) : list Row :=
  firstn (Z.to_nat (ListPatientNotesTool.limit params))
    (map (fun r =>
            {| row_note_id := note_id r;
               row_subject_id := subject_id r;
               row_note_type := Sql.literal table;
               note_length := Sql.LENGTH (text r);
               preview := Sql.LEFT (text r) 100 |})
         (List.filter
            (fun r => (subject_id r =? ListPatientNotesTool.subject_id params)%Z)
            rows)).

End ListStatement.

(** ** The string literals of a statement *)

Module SqlText.

(** The values of the string literals of a statement, in the order they
    are written.  A literal opens at a quote and closes at the next quote
    that is not doubled; inside it a doubled quote stands for one quote.
    [cur] holds what has been read of the literal being read, if any. *)
Fixpoint literals_from (cur : option string) (s : string) : list string :=
  match s with
  | EmptyString =>
      match cur with
      | None => []
      | Some acc => [acc]
      end
  | String c r =>
      match cur with
      | None =>
          if Ascii.eqb c Sql.quote then literals_from (Some EmptyString) r
          else literals_from None r
      | Some acc =>
          if Ascii.eqb c Sql.quote then
            match r with
            | String c2 r2 =>
                if Ascii.eqb c2 Sql.quote
                then literals_from (Some (acc +:+ "'")) r2
                else acc :: literals_from None r
            | EmptyString => [acc]
            end
          else literals_from (Some (acc +:+ String c EmptyString)) r
      end
  end.

Definition literals (s : string) : list string := literals_from None s.

(** No quote in [s]. *)
Fixpoint quote_free (s : string) : bool :=
  match s with
  | EmptyString => true
  | String c r => negb (Ascii.eqb c Sql.quote) && quote_free r
  end.

End SqlText.

(** ** The adapters of [mcp_server.py] for the notes tools *)

Module McpServer.

(** What [ToolSelector.check_compatibility] hands back: the adapters read
    [compatible] and [error_message]. *)
Record CompatibilityResult : Type := {
  compatible : bool;
  error_message : string
}.

Section Adapters.
Context {B : Backend}.

(** [_tool_selector.check_compatibility] is not among the modelled files: a
    parameter.  [dataset] stands for [DatasetRegistry.get_active()], and
    [ToolRegistry.get] for the tool class of that name; the [require_oauth2]
    wrapper is outside the model. *)
Context (check_compatibility : string -> DatasetDefinition -> CompatibilityResult).

Definition search_notes (dataset : DatasetDefinition) (query note_type : string)
    (limit snippet_length : Z) : M B string :=
  let verdict := check_compatibility "search_notes" dataset in
  if negb (compatible verdict) then ret (error_message verdict)
  else
    let! out := SearchNotesTool.invoke dataset
                  {| SearchNotesTool.query := query;
                     SearchNotesTool.note_type := note_type;
                     SearchNotesTool.limit := limit;
                     SearchNotesTool.snippet_length := snippet_length |} in
    ret (result out).

Definition get_note (dataset : DatasetDefinition) (note_id : string)
    (max_length : option Z) : M B string :=
  let verdict := check_compatibility "get_note" dataset in
  if negb (compatible verdict) then ret (error_message verdict)
  else
    let! out := GetNoteTool.invoke dataset
                  {| GetNoteTool.note_id := note_id;
                     GetNoteTool.max_length := max_length |} in
    ret (result out).

Definition list_patient_notes (dataset : DatasetDefinition) (subject_id : Z)
    (note_type : string) (limit : Z) : M B string :=
  let verdict := check_compatibility "list_patient_notes" dataset in
  if negb (compatible verdict) then ret (error_message verdict)
  else
    let! out := ListPatientNotesTool.invoke dataset
                  {| ListPatientNotesTool.subject_id := subject_id;
                     ListPatientNotesTool.note_type := note_type;
                     ListPatientNotesTool.limit := limit |} in
    ret (result out).

End Adapters.

End McpServer.

(** ** Further notions used to state the properties *)


(** A call that returned without rows to show. *)
Definition without_rows (o : Outcome) : bool :=
  match o with
  | Returned r => negb (success r && truthy (data r))
  | Raised _ => false
  end.

(** A call after which [list_patient_notes] has nothing to list: it
    appended nothing, or what it gave back says "no rows" in some case. *)
Definition quiet (o : Outcome) : bool :=
  match o with
  | Returned r =>
      negb (success r && truthy (data r)) || contains "no rows" (lower (data r))
  | Raised e => contains "no rows" (lower e)
  end.

(** [x] and [s] agree as far as both go. *)
Fixpoint overlaps (x s : string) : bool :=
  match x, s with
  | String a x', String b s' => Ascii.eqb a b && overlaps x' s'
  | _, _ => true
  end.

(** [x] cannot start anywhere inside [h], whatever follows [h]. *)
Fixpoint no_start (x h : string) : bool :=
  match h with
  | EmptyString => true
  | String _ h' => negb (overlaps x h) && no_start x h'
  end.

(** The table names the tools know. *)
Definition note_tables : list string := ["discharge"; "radiology"].


(** Reading the fixed text [c] from state [cur]: the literals closed on the
    way and the state at its end; [None] when [c] ends on a quote whose
    meaning depends on what follows. *)
Fixpoint feed (cur : option string) (c : string) : option (list string * option string) :=
  match c with
  | EmptyString => Some ([], cur)
  | String x r =>
      match cur with
      | None =>
          if Ascii.eqb x Sql.quote then feed (Some EmptyString) r else feed None r
      | Some acc =>
          if Ascii.eqb x Sql.quote then
            match r with
            | String x2 r2 =>
                if Ascii.eqb x2 Sql.quote then feed (Some (acc +:+ "'")) r2
                else option_map (fun p => (acc :: fst p, snd p)) (feed None r)
            | EmptyString => None
            end
          else feed (Some (acc +:+ String x EmptyString)) r
      end
  end.


(** ** Checks of the primitives on samples *)

Example of_int_samples :
  of_int 300 = "300" /\ of_int 0 = "0" /\ of_int (-7) = "-7".
Proof. repeat split; reflexivity. Qed.

Example lower_samples :
  lower "DISCHARGE" = "discharge" /\ lower "Radiology" = "radiology" /\
  upper "discharge" = "DISCHARGE".
Proof. repeat split; reflexivity. Qed.

(** ** Facts about the string primitives *)

Section StringFacts.

Lemma app_cons (c : ascii) (s t : string) :
  String c s +:+ t = String c (s +:+ t).
Proof. reflexivity. Qed.

Lemma app_empty_l (s : string) : EmptyString +:+ s = s.
Proof. reflexivity. Qed.

Lemma app_empty_r (s : string) : s +:+ EmptyString = s.
Proof. induction s as [|c s IH]; [reflexivity|]. now rewrite app_cons, IH. Qed.

Lemma app_assoc (a b c : string) : (a +:+ b) +:+ c = a +:+ (b +:+ c).
Proof.
  induction a as [|x a IH]; [reflexivity|].
  now rewrite !app_cons, IH.
Qed.

Lemma length_app (a b : string) :
  String.length (a +:+ b) = String.length a + String.length b.
Proof.
  induction a as [|x a IH]; [reflexivity|].
  rewrite app_cons. cbn [String.length]. now rewrite IH.
Qed.

Lemma lower_app (a b : string) : lower (a +:+ b) = lower a +:+ lower b.
Proof.
  induction a as [|x a IH]; [reflexivity|].
  rewrite app_cons. cbn [lower]. now rewrite IH, app_cons.
Qed.


Lemma length_take (n : nat) (s : string) :
  String.length (take n s) = Nat.min n (String.length s).
Proof.
  revert s; induction n as [|n IH]; intros [|c s]; cbn [take String.length];
    try reflexivity.
  now rewrite IH.
Qed.



Lemma take_drop (n : nat) (s : string) : take n s +:+ drop n s = s.
Proof.
  revert s; induction n as [|n IH]; intros [|c s]; cbn [take drop];
    try reflexivity.
  now rewrite app_cons, IH.
Qed.


Lemma startswith_app (p r : string) : startswith p (p +:+ r) = true.
Proof.
  induction p as [|c p IH]; [reflexivity|].
  rewrite app_cons. cbn [startswith]. now rewrite Ascii.eqb_refl, IH.
Qed.

Lemma startswith_app_l (p a b : string) :
  startswith p a = true -> startswith p (a +:+ b) = true.
Proof.
  revert a; induction p as [|c p IH]; intros a H; [reflexivity|].
  destruct a as [|x a]; [discriminate|].
  rewrite app_cons. cbn [startswith] in *.
  apply andb_true_iff in H as [-> H]. now rewrite (IH _ H).
Qed.


Lemma find_unfold (needle s : string) :
  find needle s =
    if startswith needle s then Some 0
    else match s with
         | EmptyString => None
         | String _ r => option_map S (find needle r)
         end.
Proof. now destruct s. Qed.



Lemma contains_app_r (x a b : string) :
  contains x b = true -> contains x (a +:+ b) = true.
Proof.
  unfold contains. induction a as [|c a IH]; intros H; [exact H|].
  rewrite app_cons, find_unfold.
  destruct (startswith x (String c (a +:+ b))); [reflexivity|].
  specialize (IH H). destruct (find x (a +:+ b)); [reflexivity | discriminate].
Qed.

Lemma contains_app_l (x a b : string) :
  contains x a = true -> contains x (a +:+ b) = true.
Proof.
  unfold contains. induction a as [|c a IH]; rewrite (find_unfold x).
  - destruct (startswith x EmptyString) eqn:E; [|discriminate].
    intros _. destruct x; [|discriminate]. now destruct b.
  - rewrite app_cons, (find_unfold x (String c (a +:+ b))).
    destruct (startswith x (String c a)) eqn:E.
    + intros _. pose proof (startswith_app_l x (String c a) b E) as E'.
      rewrite app_cons in E'. now rewrite E'.
    + destruct (startswith x (String c (a +:+ b))); [reflexivity|].
      destruct (find x a); [|discriminate]. intros _.
      specialize (IH eq_refl). destruct (find x (a +:+ b)); [reflexivity | discriminate].
Qed.

(** A needle that occurs is found. *)
Lemma contains_intro (x a b : string) : contains x (a +:+ x +:+ b) = true.
Proof.
  apply contains_app_r. unfold contains.
  rewrite find_unfold, startswith_app. reflexivity.
Qed.

End StringFacts.

(** ** Runs of the per-table loops *)

Section Runs.
Context {B : Backend}.

Lemma run_queries_length dataset sqls (w : World B) :
  List.length (fst (run_queries dataset sqls w)) = List.length sqls.
Proof.
  revert w; induction sqls as [|q rest IH]; intros w; [reflexivity|].
  cbn [run_queries]. destruct (execute_query B q dataset w) as [o w1].
  specialize (IH w1). destruct (run_queries dataset rest w1) as [os w2].
  cbn [fst List.length] in *. now rewrite IH.
Qed.

Lemma events_sql sqls os :
  List.length os = List.length sqls -> map ev_sql (events sqls os) = sqls.
Proof.
  revert os; induction sqls as [|q rest IH]; intros [|o os] H;
    try reflexivity; try discriminate.
  cbn. f_equal. apply IH. now injection H.
Qed.

Lemma events_outcome sqls os :
  List.length os = List.length sqls -> map ev_outcome (events sqls os) = os.
Proof.
  revert os; induction sqls as [|q rest IH]; intros [|o os] H;
    try reflexivity; try discriminate.
  cbn. f_equal. apply IH. now injection H.
Qed.

End Runs.

(** Closed forms of the three loops. *)
Section LoopFacts.
Context {B : Backend}.

Lemma search_tables_run dataset params term tables results (s : State B) :
  SearchNotesTool.search_tables dataset params term tables results s =
    let sqls := map (SearchNotesTool.sql params term) tables in
    let (os, w') := run_queries dataset sqls (world s) in
    (results ++ concat (zip_with SearchNotesTool.appended tables os),
     {| world := w'; issued := issued s ++ events sqls os |}).
Proof.
  revert results s; induction tables as [|t rest IH]; intros results [w log].
  - cbn. now rewrite !app_nil_r.
  - cbn [SearchNotesTool.search_tables map run_queries]. unfold bind, execute.
    cbn [world issued].
    destruct (execute_query B _ dataset w) as [o w1].
    rewrite IH. cbn [world issued].
    destruct (run_queries dataset _ w1) as [os w2].
    cbn [zip_with concat events]. unfold events.
    now rewrite <- !List.app_assoc.
Qed.

Lemma query_tables_run dataset params tables results (s : State B) :
  ListPatientNotesTool.query_tables dataset params tables results s =
    let sqls := map (ListPatientNotesTool.sql params) tables in
    let (os, w') := run_queries dataset sqls (world s) in
    (results ++ concat (zip_with ListPatientNotesTool.appended tables os),
     {| world := w'; issued := issued s ++ events sqls os |}).
Proof.
  revert results s; induction tables as [|t rest IH]; intros results [w log].
  - cbn. now rewrite !app_nil_r.
  - cbn [ListPatientNotesTool.query_tables map run_queries]. unfold bind, execute.
    cbn [world issued].
    destruct (execute_query B _ dataset w) as [o w1].
    rewrite IH. cbn [world issued].
    destruct (run_queries dataset _ w1) as [os w2].
    cbn [zip_with concat events]. unfold events.
    now rewrite <- !List.app_assoc.
Qed.

(** [search_notes] in closed form. *)
Lemma search_invoke_run dataset params (w : World B) :
  SearchNotesTool.invoke dataset params (start w) =
    let info := get_backend_info B dataset w in
    let tables := SearchNotesTool._get_tables_for_type (SearchNotesTool.note_type params) in
    let term := replace_char "'" "''" (SearchNotesTool.query params) in
    let sqls := map (SearchNotesTool.sql params term) tables in
    if is_nil tables then
      ({| result := SearchNotesTool.invalid_note_type info (SearchNotesTool.note_type params) |},
       start w)
    else
      let (os, w') := run_queries dataset sqls w in
      let results := concat (zip_with SearchNotesTool.appended tables os) in
      ({| result := if is_nil results
                    then SearchNotesTool.no_matches info (SearchNotesTool.query params) tables
                    else SearchNotesTool.report info params results |},
       {| world := w'; issued := events sqls os |}).
Proof.
  unfold SearchNotesTool.invoke, bind, backend_info, start. cbn [world].
  cbv zeta.
  destruct (is_nil (SearchNotesTool._get_tables_for_type _)); [reflexivity|].
  rewrite search_tables_run. cbn [world issued]. cbv zeta.
  destruct (run_queries dataset _ w) as [os w']. cbn [List.app].
  now destruct (is_nil _).
Qed.

(** [list_patient_notes] in closed form. *)
Lemma list_invoke_run dataset params (w : World B) :
  ListPatientNotesTool.invoke dataset params (start w) =
    let info := get_backend_info B dataset w in
    let tables :=
      ListPatientNotesTool._get_tables_for_type (ListPatientNotesTool.note_type params) in
    let sqls := map (ListPatientNotesTool.sql params) tables in
    if is_nil tables then
      ({| result := ListPatientNotesTool.invalid_note_type info
                      (ListPatientNotesTool.note_type params) |},
       start w)
    else
      let (os, w') := run_queries dataset sqls w in
      let results := concat (zip_with ListPatientNotesTool.appended tables os) in
      ({| result := if is_nil results || ListPatientNotesTool.all_no_rows results
                    then ListPatientNotesTool.no_notes info
                           (ListPatientNotesTool.subject_id params)
                    else ListPatientNotesTool.report info params results |},
       {| world := w'; issued := events sqls os |}).
Proof.
  unfold ListPatientNotesTool.invoke, bind, backend_info, start. cbn [world].
  cbv zeta.
  destruct (is_nil (ListPatientNotesTool._get_tables_for_type _)); [reflexivity|].
  rewrite query_tables_run. cbn [world issued]. cbv zeta.
  destruct (run_queries dataset _ w) as [os w']. cbn [List.app].
  now destruct (_ || _).
Qed.

End LoopFacts.

(** ** The capability gate *)

(** The check for an arbitrary tool class: the allow-list counts when it is
    neither [None] nor empty. *)
Lemma is_compatible_iff (tool : ToolClass) (dataset : DatasetDefinition) :
  is_compatible tool dataset = true <->
  (forall allowed, supported_datasets tool = Some allowed -> allowed ≠ ∅ ->
                   name dataset ∈ allowed) /\
  required_modalities tool ⊆ modalities dataset.
Proof.
  unfold is_compatible, truthy_set, not_in_set.
  destruct (supported_datasets tool) as [allowed|];
    repeat case_bool_decide; cbn; (split; [intros Hc | intros [Ha Hsub]]);
    try discriminate Hc; try reflexivity; try contradiction;
    try (split; [intros a [= <-] Hne; first [assumption | contradiction] | assumption]).
  exfalso. eauto.
Qed.

Lemma note_tools_attributes (tool : ToolClass) :
  In tool note_tools ->
  required_modalities tool = {[ NOTES ]} /\ supported_datasets tool = None.
Proof. intros [<-|[<-|[<-|[]]]]; split; reflexivity. Qed.

(** C1. For each of the tools search_notes, get_note and list_patient_notes
    and every dataset: the check answers incompatible when the allow-list is
    set and the dataset's name is not in it, incompatible when the required
    modalities are not a subset of the dataset's, and compatible otherwise;
    a dataset without the notes modality is incompatible (the check takes no
    call parameters). *)
Theorem compatibility_gate (tool : ToolClass) (dataset : DatasetDefinition) :
  In tool note_tools ->
  (forall allowed, supported_datasets tool = Some allowed ->
                   name dataset ∉ allowed -> is_compatible tool dataset = false) /\
  (¬ required_modalities tool ⊆ modalities dataset ->
   is_compatible tool dataset = false) /\
  ((forall allowed, supported_datasets tool = Some allowed -> name dataset ∈ allowed) ->
   required_modalities tool ⊆ modalities dataset ->
   is_compatible tool dataset = true) /\
  (NOTES ∈ required_modalities tool /\
   (NOTES ∉ modalities dataset -> is_compatible tool dataset = false)).
Proof.
  intros Hin. destruct (note_tools_attributes tool Hin) as [Hreq Hsup].
  assert (Hnot : forall b, b <> true -> b = false) by (intros []; congruence).
  repeat split.
  - intros allowed Hs. congruence.
  - intros Hn. apply Hnot. intros Hc. apply is_compatible_iff in Hc. tauto.
  - intros Ha Hsub. apply is_compatible_iff. split; [|assumption].
    intros allowed Hs _. now apply Ha.
  - rewrite Hreq. now apply elem_of_singleton.
  - intros Hn. apply Hnot. intros Hc. apply is_compatible_iff in Hc.
    destruct Hc as [_ Hsub]. rewrite Hreq in Hsub.
    apply Hn, Hsub. now apply elem_of_singleton.
Qed.

Lemma compatibility_gate_witness :
  is_compatible get_note_tool tabular_dataset = false /\
  is_compatible get_note_tool notes_dataset = true.
Proof.
  assert (Hin : In get_note_tool note_tools) by (right; left; reflexivity).
  split.
  - destruct (compatibility_gate get_note_tool tabular_dataset Hin)
      as (_ & _ & _ & _ & H).
    apply H. cbn. intros Hn. apply elem_of_singleton in Hn. discriminate Hn.
  - destruct (compatibility_gate get_note_tool notes_dataset Hin)
      as (_ & _ & H & _).
    apply H.
    + intros allowed Hs. discriminate Hs.
    + reflexivity.
Defined.

(** ** Resolution of the note-type selector *)

Lemma search_tables_for_type_cases (nt : string) :
  (lower nt = "discharge" /\ SearchNotesTool._get_tables_for_type nt = ["discharge"]) \/
  (lower nt = "radiology" /\ SearchNotesTool._get_tables_for_type nt = ["radiology"]) \/
  (lower nt = "all" /\
   SearchNotesTool._get_tables_for_type nt = ["discharge"; "radiology"]) \/
  (unknown_note_type nt /\ SearchNotesTool._get_tables_for_type nt = []).
Proof.
  unfold SearchNotesTool._get_tables_for_type, unknown_note_type. cbv zeta.
  destruct (String.eqb_spec (lower nt) "discharge") as [E1|E1]; [now left|].
  destruct (String.eqb_spec (lower nt) "radiology") as [E2|E2]; [now right; left|].
  destruct (String.eqb_spec (lower nt) "all") as [E3|E3]; [now right; right; left|].
  now right; right; right.
Qed.

Lemma list_tables_for_type_eq (nt : string) :
  ListPatientNotesTool._get_tables_for_type nt = SearchNotesTool._get_tables_for_type nt.
Proof. reflexivity. Qed.

Lemma unknown_note_type_no_tables (nt : string) :
  unknown_note_type nt -> SearchNotesTool._get_tables_for_type nt = [].
Proof.
  intros (U1 & U2 & U3).
  destruct (search_tables_for_type_cases nt) as [[E _]|[[E _]|[[E _]|[_ E]]]];
    congruence.
Qed.

(** C2, the claim as stated fails: "DISCHARGE" is none of the three values
    "discharge", "radiology", "all", yet a search with it is not answered
    with the invalid-note_type message and does query a table. *)
Lemma note_type_other_value_counterexample :
  ~ (forall (B : Backend) (dataset : DatasetDefinition)
            (params : SearchNotesTool.SearchNotesInput) (w : World B),
        SearchNotesTool.note_type params <> "discharge" ->
        SearchNotesTool.note_type params <> "radiology" ->
        SearchNotesTool.note_type params <> "all" ->
        result (fst (SearchNotesTool.invoke dataset params (start w))) =
          SearchNotesTool.invalid_note_type (get_backend_info B dataset w)
            (SearchNotesTool.note_type params) /\
        issued (snd (SearchNotesTool.invoke dataset params (start w))) = []).
Proof.
  intros H.
  specialize (H (scripted "backend") notes_dataset
                {| SearchNotesTool.query := "sepsis";
                   SearchNotesTool.note_type := "DISCHARGE";
                   SearchNotesTool.limit := 5;
                   SearchNotesTool.snippet_length := 300 |}
                [rows "note_id 1"]).
  destruct H as [_ H]; [discriminate..|].
  vm_compute in H. discriminate H.
Qed.

(** C2, amended. "discharge" resolves to the table list [discharge],
    "radiology" to [radiology], "all" to [discharge, radiology]; every call
    queries exactly the tables its selector resolves to, in that order; and
    every selector whose lower-cased form is none of the three produces the
    invalid-note_type message with no query issued.  This holds for
    search_notes and for list_patient_notes. *)
Theorem note_type_resolution :
  (SearchNotesTool._get_tables_for_type "discharge" = ["discharge"] /\
   SearchNotesTool._get_tables_for_type "radiology" = ["radiology"] /\
   SearchNotesTool._get_tables_for_type "all" = ["discharge"; "radiology"]) /\
  (ListPatientNotesTool._get_tables_for_type "discharge" = ["discharge"] /\
   ListPatientNotesTool._get_tables_for_type "radiology" = ["radiology"] /\
   ListPatientNotesTool._get_tables_for_type "all" = ["discharge"; "radiology"]) /\
  (forall (B : Backend) (dataset : DatasetDefinition)
          (params : SearchNotesTool.SearchNotesInput) (w : World B),
      let run := SearchNotesTool.invoke dataset params (start w) in
      let nt := SearchNotesTool.note_type params in
      map ev_sql (issued (snd run)) =
        map (SearchNotesTool.sql params
               (replace_char "'" "''" (SearchNotesTool.query params)))
            (SearchNotesTool._get_tables_for_type nt) /\
      (unknown_note_type nt ->
       result (fst run) =
         SearchNotesTool.invalid_note_type (get_backend_info B dataset w) nt /\
       snd run = start w)) /\
  (forall (B : Backend) (dataset : DatasetDefinition)
          (params : ListPatientNotesTool.ListPatientNotesInput) (w : World B),
      let run := ListPatientNotesTool.invoke dataset params (start w) in
      let nt := ListPatientNotesTool.note_type params in
      map ev_sql (issued (snd run)) =
        map (ListPatientNotesTool.sql params)
            (ListPatientNotesTool._get_tables_for_type nt) /\
      (unknown_note_type nt ->
       result (fst run) =
         ListPatientNotesTool.invalid_note_type (get_backend_info B dataset w) nt /\
       snd run = start w)).
Proof.
  split; [repeat split; reflexivity|].
  split; [repeat split; reflexivity|].
  split.
  - intros B dataset params w run nt. subst run nt.
    rewrite search_invoke_run. cbv zeta. split.
    + destruct (SearchNotesTool._get_tables_for_type _) as [|t ts] eqn:Et;
        [reflexivity|]. cbn [is_nil].
      pose proof (run_queries_length (B:=B) dataset
        (map (SearchNotesTool.sql params
                (replace_char "'" "''" (SearchNotesTool.query params))) (t :: ts)) w) as L.
      destruct (run_queries _ _ _) as [os w']. cbn [fst snd issued] in *.
      now apply events_sql.
    + intros U. rewrite (unknown_note_type_no_tables _ U). cbn. now split.
  - intros B dataset params w run nt. subst run nt.
    rewrite list_invoke_run. cbv zeta. split.
    + destruct (ListPatientNotesTool._get_tables_for_type _) as [|t ts] eqn:Et;
        [reflexivity|]. cbn [is_nil].
      pose proof (run_queries_length (B:=B) dataset
        (map (ListPatientNotesTool.sql params) (t :: ts)) w) as L.
      destruct (run_queries _ _ _) as [os w']. cbn [fst snd issued] in *.
      now apply events_sql.
    + intros U. rewrite list_tables_for_type_eq, (unknown_note_type_no_tables _ U).
      cbn. now split.
Qed.

Lemma note_type_resolution_witness :
  unknown_note_type "bogus" /\
  result (fst (SearchNotesTool.invoke (B := scripted "backend") notes_dataset
                 {| SearchNotesTool.query := "sepsis";
                    SearchNotesTool.note_type := "bogus";
                    SearchNotesTool.limit := 5;
                    SearchNotesTool.snippet_length := 300 |}
                 (start (B := scripted "backend") [rows "note_id 1"]))) =
    SearchNotesTool.invalid_note_type "backend" "bogus".
Proof.
  assert (U : unknown_note_type "bogus") by (repeat split; discriminate).
  split; [exact U|].
  destruct note_type_resolution as (_ & _ & H & _).
  destruct (H (scripted "backend") notes_dataset
              {| SearchNotesTool.query := "sepsis";
                 SearchNotesTool.note_type := "bogus";
                 SearchNotesTool.limit := 5;
                 SearchNotesTool.snippet_length := 300 |}
              [rows "note_id 1"]) as [_ H'].
  exact (proj1 (H' U)).
Defined.

(** ** Case of the selector *)

Lemma lower_char_idempotent (c : ascii) : lower_char (lower_char c) = lower_char c.
Proof.
  destruct c as [[] [] [] [] [] [] [] []]; reflexivity.
Qed.

Lemma lower_idempotent (s : string) : lower (lower s) = lower s.
Proof.
  induction s as [|c s IH]; [reflexivity|].
  cbn [lower]. now rewrite lower_char_idempotent, IH.
Qed.

(** Two responses with the same backend line differ when what follows it
    differs at a fixed character. *)
Ltac differ H :=
  apply String.app_inj in H; unfold nl in H;
  repeat rewrite app_cons in H; discriminate H.

Lemma search_response_not_invalid info params tables results nt :
  (if is_nil results
   then SearchNotesTool.no_matches info (SearchNotesTool.query params) tables
   else SearchNotesTool.report info params results)
  <> SearchNotesTool.invalid_note_type info nt.
Proof.
  unfold SearchNotesTool.no_matches, SearchNotesTool.report,
    SearchNotesTool.invalid_note_type.
  destruct (is_nil results); intros H; differ H.
Qed.

Lemma list_response_not_invalid info params results nt :
  (if is_nil results || ListPatientNotesTool.all_no_rows results
   then ListPatientNotesTool.no_notes info (ListPatientNotesTool.subject_id params)
   else ListPatientNotesTool.report info params results)
  <> ListPatientNotesTool.invalid_note_type info nt.
Proof.
  unfold ListPatientNotesTool.no_notes, ListPatientNotesTool.report,
    ListPatientNotesTool.invalid_note_type.
  destruct (_ || _); intros H; differ H.
Qed.

(** C8. The selector is matched without regard to case: a value resolves to
    the tables of its lower-cased form, so a value whose lower-cased form is
    "discharge", "radiology" or "all" gets that form's tables, and neither
    search_notes nor list_patient_notes answers it with the
    invalid-note_type message. *)
Theorem note_type_case_insensitive (nt : string) :
  SearchNotesTool._get_tables_for_type nt =
    SearchNotesTool._get_tables_for_type (lower nt) /\
  ListPatientNotesTool._get_tables_for_type nt =
    ListPatientNotesTool._get_tables_for_type (lower nt) /\
  (lower nt = "discharge" ->
   SearchNotesTool._get_tables_for_type nt = ["discharge"] /\
   ListPatientNotesTool._get_tables_for_type nt = ["discharge"]) /\
  (lower nt = "radiology" ->
   SearchNotesTool._get_tables_for_type nt = ["radiology"] /\
   ListPatientNotesTool._get_tables_for_type nt = ["radiology"]) /\
  (lower nt = "all" ->
   SearchNotesTool._get_tables_for_type nt = ["discharge"; "radiology"] /\
   ListPatientNotesTool._get_tables_for_type nt = ["discharge"; "radiology"]) /\
  (lower nt = "discharge" \/ lower nt = "radiology" \/ lower nt = "all" ->
   forall (B : Backend) (dataset : DatasetDefinition) (w : World B),
     (forall params, SearchNotesTool.note_type params = nt ->
        result (fst (SearchNotesTool.invoke dataset params (start w))) <>
          SearchNotesTool.invalid_note_type (get_backend_info B dataset w) nt) /\
     (forall params, ListPatientNotesTool.note_type params = nt ->
        result (fst (ListPatientNotesTool.invoke dataset params (start w))) <>
          ListPatientNotesTool.invalid_note_type (get_backend_info B dataset w) nt)).
Proof.
  assert (Hsame : SearchNotesTool._get_tables_for_type nt =
                  SearchNotesTool._get_tables_for_type (lower nt)).
  { unfold SearchNotesTool._get_tables_for_type. cbv zeta.
    now rewrite lower_idempotent. }
  split; [exact Hsame|]. split; [exact Hsame|].
  assert (Hres : forall v, lower nt = v ->
            SearchNotesTool._get_tables_for_type nt =
            SearchNotesTool._get_tables_for_type v /\
            ListPatientNotesTool._get_tables_for_type nt =
            ListPatientNotesTool._get_tables_for_type v).
  { intros v <-. now split. }
  split; [intros E; exact (Hres _ E)|].
  split; [intros E; exact (Hres _ E)|].
  split; [intros E; exact (Hres _ E)|].
  intros Hv B dataset w.
  assert (Hne : is_nil (SearchNotesTool._get_tables_for_type nt) = false).
  { destruct Hv as [E|[E|E]]; destruct (Hres _ E) as [-> _]; reflexivity. }
  split; intros params <-.
  - rewrite search_invoke_run. cbv zeta. rewrite Hne.
    destruct (run_queries _ _ _) as [os w']. cbn [fst result].
    apply search_response_not_invalid.
  - rewrite list_invoke_run. cbv zeta. rewrite list_tables_for_type_eq, Hne.
    destruct (run_queries _ _ _) as [os w']. cbn [fst result].
    apply list_response_not_invalid.
Qed.

Lemma note_type_case_insensitive_witness :
  SearchNotesTool._get_tables_for_type "DISCHARGE" = ["discharge"] /\
  ListPatientNotesTool._get_tables_for_type "Radiology" = ["radiology"] /\
  SearchNotesTool._get_tables_for_type "ALL" = ["discharge"; "radiology"].
Proof.
  split; [|split].
  - destruct (note_type_case_insensitive "DISCHARGE") as (_ & _ & H & _).
    exact (proj1 (H eq_refl)).
  - destruct (note_type_case_insensitive "Radiology") as (_ & _ & _ & H & _).
    exact (proj2 (H eq_refl)).
  - destruct (note_type_case_insensitive "ALL") as (_ & _ & _ & _ & H & _).
    exact (proj1 (H eq_refl)).
Defined.

(** ** The responses in terms of the log *)

Section LogFacts.
Context {B : Backend}.

(** [search_notes]: one logged call per selected table, in table order, and
    the response assembled from what each call gave back. *)
Lemma search_invoke_log dataset params (w : World B) :
  let run := SearchNotesTool.invoke dataset params (start w) in
  let info := get_backend_info B dataset w in
  let tables := SearchNotesTool._get_tables_for_type (SearchNotesTool.note_type params) in
  let term := replace_char "'" "''" (SearchNotesTool.query params) in
  let outcomes := map ev_outcome (issued (snd run)) in
  let results := concat (zip_with SearchNotesTool.appended tables outcomes) in
  List.length outcomes = List.length tables /\
  map ev_sql (issued (snd run)) = map (SearchNotesTool.sql params term) tables /\
  result (fst run) =
    if is_nil tables
    then SearchNotesTool.invalid_note_type info (SearchNotesTool.note_type params)
    else if is_nil results
         then SearchNotesTool.no_matches info (SearchNotesTool.query params) tables
         else SearchNotesTool.report info params results.
Proof.
  cbv zeta. rewrite search_invoke_run. cbv zeta.
  destruct (SearchNotesTool._get_tables_for_type _) as [|t ts] eqn:Et.
  - cbn. repeat split; reflexivity.
  - cbn [is_nil].
    pose proof (run_queries_length (B:=B) dataset
      (map (SearchNotesTool.sql params
              (replace_char "'" "''" (SearchNotesTool.query params))) (t :: ts)) w) as L.
    destruct (run_queries _ _ _) as [os w']. cbn [fst snd issued result] in *.
    rewrite events_outcome, events_sql by exact L.
    rewrite length_map in L. repeat split; exact L || reflexivity.
Qed.

(** [list_patient_notes], likewise. *)
Lemma list_invoke_log dataset params (w : World B) :
  let run := ListPatientNotesTool.invoke dataset params (start w) in
  let info := get_backend_info B dataset w in
  let tables :=
    ListPatientNotesTool._get_tables_for_type (ListPatientNotesTool.note_type params) in
  let outcomes := map ev_outcome (issued (snd run)) in
  let results := concat (zip_with ListPatientNotesTool.appended tables outcomes) in
  List.length outcomes = List.length tables /\
  map ev_sql (issued (snd run)) = map (ListPatientNotesTool.sql params) tables /\
  result (fst run) =
    if is_nil tables
    then ListPatientNotesTool.invalid_note_type info (ListPatientNotesTool.note_type params)
    else if is_nil results || ListPatientNotesTool.all_no_rows results
         then ListPatientNotesTool.no_notes info (ListPatientNotesTool.subject_id params)
         else ListPatientNotesTool.report info params results.
Proof.
  cbv zeta. rewrite list_invoke_run. cbv zeta.
  destruct (ListPatientNotesTool._get_tables_for_type _) as [|t ts] eqn:Et.
  - cbn. repeat split; reflexivity.
  - cbn [is_nil].
    pose proof (run_queries_length (B:=B) dataset
      (map (ListPatientNotesTool.sql params) (t :: ts)) w) as L.
    destruct (run_queries _ _ _) as [os w']. cbn [fst snd issued result] in *.
    rewrite events_outcome, events_sql by exact L.
    rewrite length_map in L. repeat split; exact L || reflexivity.
Qed.

(** The first two calls of a run are the backend's answers in sequence. *)
Lemma run_queries_two dataset q1 q2 (w : World B) :
  fst (run_queries dataset [q1; q2] w) =
    [fst (execute_query B q1 dataset w);
     fst (execute_query B q2 dataset (snd (execute_query B q1 dataset w)))].
Proof.
  cbn. destruct (execute_query B q1 dataset w) as [o1 w1]. cbn.
  now destruct (execute_query B q2 dataset w1) as [o2 w2].
Qed.

End LogFacts.

(** What one table appends is part of the joined contributions. *)
Lemma appended_in_results {A} (f : string -> Outcome -> list A)
    (tables : list string) (outcomes : list Outcome) (i : nat) table o x :
  tables !! i = Some table -> outcomes !! i = Some o ->
  In x (f table o) -> In x (concat (zip_with f tables outcomes)).
Proof.
  revert outcomes i; induction tables as [|t ts IH]; intros [|o' os] [|i] Ht Ho Hx;
    try discriminate.
  - cbn in *. injection Ht as ->. injection Ho as ->. apply in_or_app. now left.
  - cbn in *. apply in_or_app. right. eapply IH; eassumption.
Qed.

(** ** Partial failure in [search_notes] *)

(** C4, the claim as stated fails: with note_type "all", a discharge query
    that returns rows and a radiology query that fails by returning a result
    with success = false give a response that does not mention radiology at
    all. *)
Lemma failed_query_counterexample :
  ~ (forall (B : Backend) (dataset : DatasetDefinition)
            (params : SearchNotesTool.SearchNotesInput) (w w1 w2 : World B)
            (found failed : QueryResult),
        let term := replace_char "'" "''" (SearchNotesTool.query params) in
        SearchNotesTool.note_type params = "all" ->
        execute_query B (SearchNotesTool.sql params term "discharge") dataset w =
          (Returned found, w1) ->
        success found = true -> data found <> EmptyString ->
        execute_query B (SearchNotesTool.sql params term "radiology") dataset w1 =
          (Returned failed, w2) ->
        success failed = false ->
        contains "RADIOLOGY"
          (result (fst (SearchNotesTool.invoke dataset params (start w)))) = true).
Proof.
  intros H.
  specialize (H (scripted "backend") notes_dataset sepsis_search
                [rows "note_id 1"; failure "radiology is offline"]
                [failure "radiology is offline"] []
                {| success := true; data := "note_id 1" |}
                {| success := false; data := "radiology is offline" |}
                eq_refl eq_refl eq_refl).
  cbv zeta in H. specialize (H ltac:(discriminate) eq_refl eq_refl).
  vm_compute in H. discriminate H.
Qed.

(** C4, amended. Every selected table is queried, in table order, whatever
    the other queries do.  If the query against one table fails by raising an
    exception, the response is the search report, holding that table's error
    text as an inline annotation next to the rows of every table that
    returned some; with note_type "all", discharge rows and a radiology
    exception give the report of the discharge rows followed by the radiology
    error annotation. *)
Theorem partial_failure (B : Backend) (dataset : DatasetDefinition)
    (params : SearchNotesTool.SearchNotesInput) (w : World B) :
  let run := SearchNotesTool.invoke dataset params (start w) in
  let info := get_backend_info B dataset w in
  let tables := SearchNotesTool._get_tables_for_type (SearchNotesTool.note_type params) in
  let term := replace_char "'" "''" (SearchNotesTool.query params) in
  let outcomes := map ev_outcome (issued (snd run)) in
  let results := concat (zip_with SearchNotesTool.appended tables outcomes) in
  map ev_sql (issued (snd run)) = map (SearchNotesTool.sql params term) tables /\
  (forall i table e,
      tables !! i = Some table -> outcomes !! i = Some (Raised e) ->
      result (fst run) = SearchNotesTool.report info params results /\
      In (SearchNotesTool.error_entry table e) results /\
      (forall j other r,
          tables !! j = Some other -> outcomes !! j = Some (Returned r) ->
          success r = true -> data r <> EmptyString ->
          In (SearchNotesTool.rows_entry other (data r)) results)) /\
  (lower (SearchNotesTool.note_type params) = "all" ->
   forall r e w1 w2,
     execute_query B (SearchNotesTool.sql params term "discharge") dataset w =
       (Returned r, w1) ->
     success r = true -> data r <> EmptyString ->
     execute_query B (SearchNotesTool.sql params term "radiology") dataset w1 =
       (Raised e, w2) ->
     result (fst run) =
       SearchNotesTool.report info params
         [SearchNotesTool.rows_entry "discharge" (data r);
          SearchNotesTool.error_entry "radiology" e]).
Proof.
  cbv zeta.
  destruct (search_invoke_log dataset params w) as (Hlen & Hsql & Hres).
  cbv zeta in Hlen, Hsql, Hres.
  split; [exact Hsql|]. split.
  - intros i table e Ht Ho.
    assert (Hin : In (SearchNotesTool.error_entry table e)
                     (concat (zip_with SearchNotesTool.appended
                        (SearchNotesTool._get_tables_for_type
                           (SearchNotesTool.note_type params))
                        (map ev_outcome
                           (issued (snd (SearchNotesTool.invoke dataset params (start w)))))))).
    { eapply appended_in_results; [exact Ht|exact Ho|]. now left. }
    split; [|split; [exact Hin|]].
    + rewrite Hres.
      destruct (SearchNotesTool._get_tables_for_type _) as [|t ts]; [discriminate Ht|].
      cbn [is_nil]. destruct (concat _) as [|x xs]; [destruct Hin | reflexivity].
    + intros j other r Ht' Ho' Hs Hd.
      eapply appended_in_results; [exact Ht'|exact Ho'|].
      cbn. rewrite Hs. destruct (data r); [congruence|]. now left.
  - intros Hall r e w1 w2 E1 Hs Hd E2.
    rewrite search_invoke_run. cbv zeta.
    destruct (search_tables_for_type_cases (SearchNotesTool.note_type params))
      as [[E _]|[[E _]|[[_ ->]|[(_ & _ & U) _]]]]; try congruence.
    cbn [is_nil map run_queries]. rewrite E1, E2. cbn.
    rewrite Hs. destruct (data r); [congruence|]. reflexivity.
Qed.

Lemma partial_failure_witness :
  result (fst (SearchNotesTool.invoke (B := scripted "backend") notes_dataset sepsis_search
                 (start (B := scripted "backend")
                    [rows "note_id 1"; Raised "radiology is offline"]))) =
    SearchNotesTool.report "backend" sepsis_search
      [SearchNotesTool.rows_entry "discharge" "note_id 1";
       SearchNotesTool.error_entry "radiology" "radiology is offline"].
Proof.
  destruct (partial_failure (scripted "backend") notes_dataset sepsis_search
              [rows "note_id 1"; Raised "radiology is offline"]) as (_ & _ & H).
  apply (H eq_refl {| success := true; data := "note_id 1" |} "radiology is offline"
           [Raised "radiology is offline"] []);
    [reflexivity | reflexivity | discriminate | reflexivity].
Defined.

(** ** Failure results in [search_notes] *)

Lemma nothing_appended {A} (f : string -> Outcome -> list A)
    (tables : list string) (outcomes : list Outcome) :
  Forall (fun o => forall table, f table o = []) outcomes ->
  concat (zip_with f tables outcomes) = [].
Proof.
  intros H; revert tables; induction H as [|o os Ho _ IH]; intros [|t ts];
    try reflexivity.
  cbn. now rewrite Ho, IH.
Qed.

(** C9. A per-table query that returns a result with success = false,
    without raising, appends nothing: neither rows nor an error annotation.
    The response is assembled from what the tables appended, so when every
    selected table ends that way it is the no-matches message, made of the
    backend line, the query and the searched tables only. *)
Theorem silent_failure (B : Backend) (dataset : DatasetDefinition)
    (params : SearchNotesTool.SearchNotesInput) (w : World B) :
  let run := SearchNotesTool.invoke dataset params (start w) in
  let info := get_backend_info B dataset w in
  let tables := SearchNotesTool._get_tables_for_type (SearchNotesTool.note_type params) in
  let outcomes := map ev_outcome (issued (snd run)) in
  let results := concat (zip_with SearchNotesTool.appended tables outcomes) in
  (forall table r, success r = false ->
                   SearchNotesTool.appended table (Returned r) = []) /\
  result (fst run) =
    (if is_nil tables
     then SearchNotesTool.invalid_note_type info (SearchNotesTool.note_type params)
     else if is_nil results
          then SearchNotesTool.no_matches info (SearchNotesTool.query params) tables
          else SearchNotesTool.report info params results) /\
  (tables <> [] ->
   Forall (fun o => exists r, o = Returned r /\ success r = false) outcomes ->
   result (fst run) =
     info +:+ nl +:+ "**No matches found** for '" +:+ SearchNotesTool.query params
       +:+ "' in " +:+ join ", " tables +:+ ".").
Proof.
  cbv zeta.
  destruct (search_invoke_log dataset params w) as (_ & _ & Hres).
  cbv zeta in Hres.
  assert (Hfail : forall table r, success r = false ->
                    SearchNotesTool.appended table (Returned r) = []).
  { intros table r Hs. cbn. now rewrite Hs. }
  split; [exact Hfail|]. split; [exact Hres|].
  intros Hne Hall. rewrite Hres.
  destruct (SearchNotesTool._get_tables_for_type _) as [|t ts]; [congruence|].
  cbn [is_nil]. rewrite nothing_appended; [reflexivity|].
  eapply Forall_impl; [exact Hall|].
  intros o (r & -> & Hs) table. now apply Hfail.
Qed.

Lemma silent_failure_witness :
  result (fst (SearchNotesTool.invoke (B := scripted "backend") notes_dataset sepsis_search
                 (start (B := scripted "backend")
                    [failure "discharge is offline"; failure "radiology is offline"]))) =
    String.concat nl ["backend"; "**No matches found** for 'sepsis' in discharge, radiology."].
Proof.
  destruct (silent_failure (scripted "backend") notes_dataset sepsis_search
              [failure "discharge is offline"; failure "radiology is offline"])
    as (_ & _ & H).
  apply H; [discriminate|].
  repeat constructor; eexists; split; reflexivity.
Defined.

(** ** Empty listings in [list_patient_notes] *)






(** ** [get_note] *)

Section GetNoteFacts.
Context {B : Backend}.

(** [get_note] in closed form: the discharge table first, the radiology
    table only when the first call does not hold the note. *)
Lemma get_invoke_run dataset params (w : World B) :
  GetNoteTool.invoke dataset params (start w) =
    let info := get_backend_info B dataset w in
    let q := GetNoteTool.sql (replace_char "'" "''" (GetNoteTool.note_id params)) in
    let first := execute_query B (q "discharge") dataset w in
    let second := execute_query B (q "radiology") dataset (snd first) in
    let ev1 := {| ev_sql := q "discharge"; ev_outcome := fst first |} in
    let ev2 := {| ev_sql := q "radiology"; ev_outcome := fst second |} in
    match note_of (fst first) with
    | Some payload =>
        ({| result := GetNoteTool.render info params payload |},
         {| world := snd first; issued := [ev1] |})
    | None =>
        match note_of (fst second) with
        | Some payload =>
            ({| result := GetNoteTool.render info params payload |},
             {| world := snd second; issued := [ev1; ev2] |})
        | None =>
            ({| result := GetNoteTool.not_found info (GetNoteTool.note_id params) |},
             {| world := snd second; issued := [ev1; ev2] |})
        end
    end.
Proof.
  unfold GetNoteTool.invoke, GetNoteTool.tables, bind, backend_info, start, execute, ret.
  cbn [world issued GetNoteTool.try_tables]. unfold bind, execute, ret.
  cbn [world issued List.app]. cbv zeta.
  destruct (execute_query B _ dataset w) as [o1 w1]. cbn [fst snd note_of].
  destruct o1 as [r1|e1]; cbn [note_of];
    [destruct (GetNoteTool.found r1); [reflexivity|] | ];
    cbn [world issued List.app];
    destruct (execute_query B _ dataset w1) as [o2 w2]; cbn [fst snd];
    (destruct o2 as [r2|e2]; cbn [note_of]; [destruct (GetNoteTool.found r2)|]);
    reflexivity.
Qed.

End GetNoteFacts.

Lemma found_iff (r : QueryResult) :
  GetNoteTool.found r = true <->
  success r = true /\ data r <> EmptyString /\
  contains "note_id" (lower (data r)) = true.
Proof.
  unfold GetNoteTool.found. rewrite !andb_true_iff.
  destruct (data r) as [|c s]; cbn [truthy]; split.
  - intros [[_ H] _]. discriminate H.
  - intros (_ & H & _). congruence.
  - intros [[H1 _] H2]. repeat split; [exact H1 | discriminate | exact H2].
  - intros (H1 & _ & H2). now repeat split.
Qed.

Lemma not_found_references info note_id :
  contains "list_patient_notes" (GetNoteTool.not_found info note_id) = true /\
  contains "search_notes" (GetNoteTool.not_found info note_id) = true.
Proof.
  unfold GetNoteTool.not_found.
  split; do 5 apply contains_app_r; apply contains_app_l; reflexivity.
Qed.

(** C6. get_note tries the discharge table, then the radiology table.  It
    stops and answers on the first table whose query holds the note; a query
    that raises or holds no note does not end the loop, the next table is
    still tried; and when no table holds the note the answer is the
    not-found message, which names list_patient_notes and search_notes. *)
Theorem note_lookup_order (B : Backend) (dataset : DatasetDefinition)
    (params : GetNoteTool.GetNoteInput) (w : World B) :
  let run := GetNoteTool.invoke dataset params (start w) in
  let info := get_backend_info B dataset w in
  let q := GetNoteTool.sql (replace_char "'" "''" (GetNoteTool.note_id params)) in
  let first := execute_query B (q "discharge") dataset w in
  let second := execute_query B (q "radiology") dataset (snd first) in
  let ev1 := {| ev_sql := q "discharge"; ev_outcome := fst first |} in
  let ev2 := {| ev_sql := q "radiology"; ev_outcome := fst second |} in
  (issued (snd run) = [ev1] \/ issued (snd run) = [ev1; ev2]) /\
  (forall payload, note_of (fst first) = Some payload ->
     issued (snd run) = [ev1] /\
     result (fst run) = GetNoteTool.render info params payload) /\
  (forall e, fst first = Raised e -> issued (snd run) = [ev1; ev2]) /\
  (note_of (fst first) = None ->
     issued (snd run) = [ev1; ev2] /\
     (forall payload, note_of (fst second) = Some payload ->
        result (fst run) = GetNoteTool.render info params payload) /\
     (note_of (fst second) = None ->
        result (fst run) = GetNoteTool.not_found info (GetNoteTool.note_id params))) /\
  contains "list_patient_notes"
    (GetNoteTool.not_found info (GetNoteTool.note_id params)) = true /\
  contains "search_notes"
    (GetNoteTool.not_found info (GetNoteTool.note_id params)) = true.
Proof.
  cbv zeta. rewrite get_invoke_run. cbv zeta.
  destruct (execute_query B _ dataset w) as [o1 w1]. cbn [fst snd].
  destruct (execute_query B _ dataset w1) as [o2 w2]. cbn [fst snd].
  split; [|split; [|split; [|split]]].
  - destruct (note_of o1); [now left|]. destruct (note_of o2); now right.
  - intros payload ->. now split.
  - intros e ->. cbn [note_of]. now destruct (note_of o2).
  - intros ->. split; [|split].
    + now destruct (note_of o2).
    + now intros payload ->.
    + now intros ->.
  - apply not_found_references.
Qed.

Lemma note_lookup_order_witness :
  result (fst (GetNoteTool.invoke (B := scripted "backend") notes_dataset
                 {| GetNoteTool.note_id := "nonexistent-id";
                    GetNoteTool.max_length := None |}
                 (start (B := scripted "backend") [Raised "discharge is offline"; rows EmptyString]))) =
    GetNoteTool.not_found "backend" "nonexistent-id".
Proof.
  destruct (note_lookup_order (scripted "backend") notes_dataset
              {| GetNoteTool.note_id := "nonexistent-id";
                 GetNoteTool.max_length := None |}
              [Raised "discharge is offline"; rows EmptyString]) as (_ & _ & _ & H & _).
  destruct H as (_ & _ & H); reflexivity || exact (H eq_refl).
Defined.

(** C10. A result counts as the note only when the query succeeded, its
    data is non-empty and the data holds "note_id" in some case.  A
    successful, non-empty payload without it is passed over: the next table
    is tried, and the answer is that table's note or the not-found
    message. *)
Theorem found_needs_note_id (B : Backend) (dataset : DatasetDefinition)
    (params : GetNoteTool.GetNoteInput) (w : World B) (r : QueryResult) :
  let run := GetNoteTool.invoke dataset params (start w) in
  let info := get_backend_info B dataset w in
  let q := GetNoteTool.sql (replace_char "'" "''" (GetNoteTool.note_id params)) in
  let first := execute_query B (q "discharge") dataset w in
  let second := execute_query B (q "radiology") dataset (snd first) in
  let ev1 := {| ev_sql := q "discharge"; ev_outcome := fst first |} in
  let ev2 := {| ev_sql := q "radiology"; ev_outcome := fst second |} in
  (GetNoteTool.found r = true <->
   success r = true /\ data r <> EmptyString /\
   contains "note_id" (lower (data r)) = true) /\
  (fst first = Returned r ->
   success r = true -> data r <> EmptyString ->
   contains "note_id" (lower (data r)) = false ->
   issued (snd run) = [ev1; ev2] /\
   (forall payload, note_of (fst second) = Some payload ->
      result (fst run) = GetNoteTool.render info params payload) /\
   (note_of (fst second) = None ->
      result (fst run) = GetNoteTool.not_found info (GetNoteTool.note_id params))).
Proof.
  cbv zeta. split; [apply found_iff|].
  intros E Hs Hd Hc.
  assert (F : GetNoteTool.found r = false).
  { unfold GetNoteTool.found. rewrite Hc. apply andb_false_r. }
  rewrite get_invoke_run. cbv zeta.
  destruct (execute_query B _ dataset w) as [o1 w1]. cbn [fst snd] in *.
  destruct (execute_query B _ dataset w1) as [o2 w2]. cbn [fst snd].
  subst o1. cbn [note_of]. rewrite F.
  split; [|split].
  - now destruct (note_of o2).
  - now intros payload ->.
  - now intros ->.
Qed.

Lemma found_needs_note_id_witness :
  result (fst (GetNoteTool.invoke (B := scripted "backend") notes_dataset
                 {| GetNoteTool.note_id := "10000032-DS-21";
                    GetNoteTool.max_length := None |}
                 (start (B := scripted "backend")
                    [rows "10000032-DS-21 | 10000032 | Patient admitted"; rows EmptyString]))) =
    GetNoteTool.not_found "backend" "10000032-DS-21".
Proof.
  destruct (found_needs_note_id (scripted "backend") notes_dataset
              {| GetNoteTool.note_id := "10000032-DS-21";
                 GetNoteTool.max_length := None |}
              [rows "10000032-DS-21 | 10000032 | Patient admitted"; rows EmptyString]
              {| success := true;
                 data := "10000032-DS-21 | 10000032 | Patient admitted" |}) as (_ & H).
  destruct H as (_ & _ & H); reflexivity || discriminate || exact (H eq_refl).
Defined.

(** ** Truncation in [get_note] *)




(** A supplied max_length of 0 counts as absent. *)
Lemma render_zero info params payload :
  GetNoteTool.max_length params = Some 0%Z ->
  GetNoteTool.render info params payload = info +:+ nl +:+ payload.
Proof. unfold GetNoteTool.render. now intros ->. Qed.



(** ** The snippet the search statement computes *)

Section SqlFacts.



Lemma lower_char_quote (c : ascii) :
  Ascii.eqb (lower_char c) "'" = Ascii.eqb c "'".
Proof. destruct c as [[] [] [] [] [] [] [] []]; reflexivity. Qed.

Lemma lower_replace (x : string) :
  lower (replace_char "'" "''" x) = replace_char "'" "''" (lower x).
Proof.
  induction x as [|c x IH]; [reflexivity|].
  cbn [replace_char lower]. rewrite lower_char_quote.
  destruct (Ascii.eqb_spec c "'") as [->|Hc].
  - rewrite lower_app, IH. reflexivity.
  - cbn [lower]. now rewrite IH.
Qed.








End SqlFacts.





(** ** The string literals of the generated statements *)

Lemma feed_sound_bounded (rest : string) (n : nat) :
  forall c cur out cur',
    String.length c <= n ->
    feed cur c = Some (out, cur') ->
    SqlText.literals_from cur (c +:+ rest) = out ++ SqlText.literals_from cur' rest.
Proof.
  induction n as [|n IH]; intros [|x r] cur out cur' Hn H;
    try (cbn in H; injection H as <- <-; reflexivity);
    cbn [String.length] in Hn; [lia|].
  rewrite app_cons. cbn [feed] in H. cbn [SqlText.literals_from].
  destruct cur as [acc|].
  - destruct (Ascii.eqb x Sql.quote).
    + destruct r as [|x2 r2]; [discriminate H|].
      rewrite app_cons. destruct (Ascii.eqb x2 Sql.quote).
      * apply IH; [cbn [String.length] in Hn; lia | exact H].
      * destruct (feed None (String x2 r2)) as [[o s]|] eqn:E; [|discriminate H].
        cbn in H. injection H as <- <-. cbn [List.app]. f_equal.
        rewrite <- app_cons. apply IH; [lia | exact E].
    + apply IH; [lia | exact H].
  - destruct (Ascii.eqb x Sql.quote); apply IH; lia || exact H.
Qed.

Lemma feed_sound (c rest : string) (cur : option string) out cur' :
  feed cur c = Some (out, cur') ->
  SqlText.literals_from cur (c +:+ rest) = out ++ SqlText.literals_from cur' rest.
Proof. apply (feed_sound_bounded rest (String.length c)). lia. Qed.

Lemma feed_eq (c rest : string) (cur : option string) :
  SqlText.literals_from cur (c +:+ rest) =
    match feed cur c with
    | Some (out, cur') => out ++ SqlText.literals_from cur' rest
    | None => SqlText.literals_from cur (c +:+ rest)
    end.
Proof.
  destruct (feed cur c) as [[out cur']|] eqn:E; [|reflexivity].
  now apply feed_sound.
Qed.

Lemma literals_escaped (x rest acc : string) :
  SqlText.literals_from (Some acc) (replace_char "'" "''" x +:+ rest) =
  SqlText.literals_from (Some (acc +:+ x)) rest.
Proof.
  revert acc; induction x as [|c x IH]; intros acc.
  - now rewrite app_empty_l, app_empty_r.
  - cbn [replace_char]. destruct (Ascii.eqb_spec c "'") as [->|Hc].
    + change ("''" +:+ replace_char "'" "''" x)
        with (String "'" (String "'" (replace_char "'" "''" x))).
      rewrite !app_cons. cbn [SqlText.literals_from]. unfold Sql.quote.
      rewrite !Ascii.eqb_refl. rewrite IH. now rewrite app_assoc.
    + rewrite app_cons. cbn [SqlText.literals_from]. unfold Sql.quote.
      apply Ascii.eqb_neq in Hc. rewrite Hc, IH. now rewrite app_assoc.
Qed.

Lemma literals_free_in (s rest acc : string) :
  SqlText.quote_free s = true ->
  SqlText.literals_from (Some acc) (s +:+ rest) =
  SqlText.literals_from (Some (acc +:+ s)) rest.
Proof.
  revert acc; induction s as [|c s IH]; intros acc H.
  - now rewrite app_empty_l, app_empty_r.
  - cbn [SqlText.quote_free] in H. apply andb_true_iff in H as [Hc Hs].
    apply negb_true_iff in Hc.
    rewrite app_cons. cbn [SqlText.literals_from]. rewrite Hc, (IH _ Hs).
    now rewrite app_assoc.
Qed.

Lemma literals_free_out (s rest : string) :
  SqlText.quote_free s = true ->
  SqlText.literals_from None (s +:+ rest) = SqlText.literals_from None rest.
Proof.
  induction s as [|c s IH]; intros H; [reflexivity|].
  cbn [SqlText.quote_free] in H. apply andb_true_iff in H as [Hc Hs].
  apply negb_true_iff in Hc.
  rewrite app_cons. cbn [SqlText.literals_from]. now rewrite Hc, (IH Hs).
Qed.

Lemma quote_free_uint (d : Decimal.uint) :
  SqlText.quote_free (NilEmpty.string_of_uint d) = true.
Proof. induction d; cbn; auto. Qed.

Lemma quote_free_of_int (n : Z) : SqlText.quote_free (of_int n) = true.
Proof.
  unfold of_int, NilZero.string_of_int, NilZero.string_of_uint.
  destruct (Z.to_int n) as [d|d]; cbn [SqlText.quote_free];
    change (Ascii.eqb "-" Sql.quote) with false; cbn [negb andb];
    destruct d; try reflexivity; apply quote_free_uint.
Qed.

Ltac lex_step :=
  first
    [ rewrite literals_escaped
    | rewrite literals_free_in by (assumption || apply quote_free_of_int)
    | rewrite literals_free_out by (assumption || apply quote_free_of_int)
    | (rewrite feed_eq; cbn) ].

(** X1. Whatever the query holds, quotes included, the search statement
    built for a table has exactly three string literals: the query, the
    query again, and the lower-cased query between two percent signs.  No
    character of the query closes a literal. *)
Theorem search_statement_literals (params : SearchNotesTool.SearchNotesInput)
    (table : string) :
  SqlText.quote_free table = true ->
  SqlText.literals
    (SearchNotesTool.sql params
       (replace_char "'" "''" (SearchNotesTool.query params)) table) =
    [SearchNotesTool.query params; SearchNotesTool.query params;
     "%" +:+ lower (SearchNotesTool.query params) +:+ "%"].
Proof.
  intros Ht. unfold SqlText.literals, SearchNotesTool.sql.
  rewrite lower_replace.
  rewrite <- (app_empty_r (_ +:+ _)). rewrite !app_assoc.
  repeat lex_step.
  rewrite ?app_assoc. reflexivity.
Qed.

Lemma search_statement_literals_witness :
  SqlText.literals
    (SearchNotesTool.sql
       {| SearchNotesTool.query := "O'Neil's";
          SearchNotesTool.note_type := "all";
          SearchNotesTool.limit := 5;
          SearchNotesTool.snippet_length := 300 |}
       "O''Neil''s" "radiology") =
    ["O'Neil's"; "O'Neil's"; "%o'neil's%"].
Proof.
  exact (search_statement_literals
           {| SearchNotesTool.query := "O'Neil's";
              SearchNotesTool.note_type := "all";
              SearchNotesTool.limit := 5;
              SearchNotesTool.snippet_length := 300 |}
           "radiology" eq_refl).
Defined.

(** X2. Whatever the note identifier holds, quotes included, the get_note
    statement built for a table has exactly one string literal, the
    identifier itself. *)
Theorem get_statement_literals (params : GetNoteTool.GetNoteInput) (table : string) :
  SqlText.quote_free table = true ->
  SqlText.literals
    (GetNoteTool.sql (replace_char "'" "''" (GetNoteTool.note_id params)) table) =
    [GetNoteTool.note_id params].
Proof.
  intros Ht. unfold SqlText.literals, GetNoteTool.sql.
  rewrite <- (app_empty_r (_ +:+ _)). rewrite !app_assoc.
  repeat lex_step.
  rewrite ?app_assoc. reflexivity.
Qed.

Lemma get_statement_literals_witness :
  SqlText.literals (GetNoteTool.sql "x'' OR ''1''=''1" "discharge") = ["x' OR '1'='1"].
Proof.
  exact (get_statement_literals
           {| GetNoteTool.note_id := "x' OR '1'='1"; GetNoteTool.max_length := None |}
           "discharge" eq_refl).
Defined.

(** ** The LIKE filter and containment *)















(** ** When the tools report nothing *)

Lemma overlaps_false (x s b : string) :
  overlaps x s = false -> startswith x (s +:+ b) = false.
Proof.
  revert s; induction x as [|a x IH]; intros [|c s] H; try discriminate H.
  rewrite app_cons. cbn [overlaps startswith] in *.
  destruct (Ascii.eqb a c); [|reflexivity]. cbn [andb] in *. now apply IH.
Qed.

(** A needle that cannot start inside [h] is looked for behind [h]. *)
Lemma contains_skip (x h b : string) :
  no_start x h = true -> contains x (h +:+ b) = contains x b.
Proof.
  unfold contains. induction h as [|c h IH]; intros H; [reflexivity|].
  cbn [no_start] in H. apply andb_true_iff in H as [Ho Hn].
  apply negb_true_iff in Ho.
  rewrite find_unfold, (overlaps_false _ _ b Ho), app_cons.
  specialize (IH Hn). now destruct (find x (h +:+ b)), (find x b).
Qed.

Lemma tables_are_note_tables (nt table : string) :
  In table (SearchNotesTool._get_tables_for_type nt) -> In table note_tables.
Proof.
  destruct (search_tables_for_type_cases nt) as [[_ ->]|[[_ ->]|[[_ ->]|[_ ->]]]];
    cbn; tauto.
Qed.

Lemma list_rows_entry_no_rows (table payload : string) :
  In table note_tables ->
  contains "no rows" (lower (ListPatientNotesTool.rows_entry table payload)) =
  contains "no rows" (lower payload).
Proof.
  unfold ListPatientNotesTool.rows_entry.
  rewrite <- !app_assoc, lower_app.
  intros [<-|[<-|[]]]; now apply contains_skip.
Qed.

Lemma list_error_entry_no_rows (table e : string) :
  In table note_tables ->
  contains "no rows" (lower (ListPatientNotesTool.error_entry table e)) =
  contains "no rows" (lower e).
Proof.
  unfold ListPatientNotesTool.error_entry.
  rewrite <- !app_assoc, lower_app.
  intros [<-|[<-|[]]]; now apply contains_skip.
Qed.

Lemma all_no_rows_app (xs ys : list string) :
  ListPatientNotesTool.all_no_rows (xs ++ ys) =
  ListPatientNotesTool.all_no_rows xs && ListPatientNotesTool.all_no_rows ys.
Proof. apply forallb_app. Qed.

Lemma list_results_quiet (tables : list string) (outcomes : list Outcome) :
  (forall t, In t tables -> In t note_tables) ->
  List.length outcomes = List.length tables ->
  let results := concat (zip_with ListPatientNotesTool.appended tables outcomes) in
  is_nil results || ListPatientNotesTool.all_no_rows results = forallb quiet outcomes.
Proof.
  cbv zeta. intros Ht Hl.
  assert (E : ListPatientNotesTool.all_no_rows
                (concat (zip_with ListPatientNotesTool.appended tables outcomes)) =
              forallb quiet outcomes).
  { revert outcomes Hl; induction tables as [|t ts IH]; intros [|o os] Hl;
      try discriminate Hl; [reflexivity|].
    cbn [zip_with concat forallb]. rewrite all_no_rows_app.
    rewrite IH; [|intros t' Hin; apply Ht; now right | now injection Hl].
    f_equal. assert (Hin : In t note_tables) by (apply Ht; now left).
    destruct o as [r|e]; cbn [ListPatientNotesTool.appended quiet].
    - destruct (success r && truthy (data r)); [|reflexivity].
      unfold ListPatientNotesTool.all_no_rows. cbn [forallb negb orb].
      now rewrite andb_true_r, list_rows_entry_no_rows.
    - unfold ListPatientNotesTool.all_no_rows. cbn [forallb].
      now rewrite andb_true_r, list_error_entry_no_rows. }
  rewrite E. destruct (concat _) as [|x xs] eqn:Ec; [|reflexivity].
  cbn [is_nil orb]. rewrite <- E. reflexivity.
Qed.

Lemma search_results_without_rows (tables : list string) (outcomes : list Outcome) :
  List.length outcomes = List.length tables ->
  is_nil (concat (zip_with SearchNotesTool.appended tables outcomes)) =
  forallb without_rows outcomes.
Proof.
  revert outcomes; induction tables as [|t ts IH]; intros [|o os] Hl;
    try discriminate Hl; [reflexivity|].
  cbn [zip_with concat forallb]. rewrite <- IH by now injection Hl.
  destruct o as [r|e]; cbn [SearchNotesTool.appended without_rows];
    [destruct (success r && truthy (data r))|]; reflexivity.
Qed.

Lemma no_matches_not_report info params tables results :
  SearchNotesTool.no_matches info (SearchNotesTool.query params) tables <>
  SearchNotesTool.report info params results.
Proof.
  unfold SearchNotesTool.no_matches, SearchNotesTool.report. intros H. differ H.
Qed.

Lemma no_notes_not_report info params results :
  ListPatientNotesTool.no_notes info (ListPatientNotesTool.subject_id params) <>
  ListPatientNotesTool.report info params results.
Proof.
  unfold ListPatientNotesTool.no_notes, ListPatientNotesTool.report. intros H. differ H.
Qed.

(** X5. A search_notes call with a valid note_type answers with the
    no-matches message exactly when every selected table's query returned
    without rows to show (not successful, or with empty data).  Otherwise,
    and so whenever a query raised, even if all did, the answer is the
    search report of what the tables appended. *)
Theorem no_matches_exactly (B : Backend) (dataset : DatasetDefinition)
    (params : SearchNotesTool.SearchNotesInput) (w : World B) :
  let run := SearchNotesTool.invoke dataset params (start w) in
  let info := get_backend_info B dataset w in
  let tables := SearchNotesTool._get_tables_for_type (SearchNotesTool.note_type params) in
  let outcomes := map ev_outcome (issued (snd run)) in
  let results := concat (zip_with SearchNotesTool.appended tables outcomes) in
  tables <> [] ->
  (result (fst run) = SearchNotesTool.no_matches info (SearchNotesTool.query params) tables
   <-> forallb without_rows outcomes = true) /\
  (forallb without_rows outcomes = false ->
   results <> [] /\ result (fst run) = SearchNotesTool.report info params results).
Proof.
  cbv zeta. intros Hne.
  destruct (search_invoke_log dataset params w) as (Hlen & _ & Hres).
  cbv zeta in Hlen, Hres.
  pose proof (search_results_without_rows _ _ Hlen) as E.
  rewrite Hres.
  destruct (SearchNotesTool._get_tables_for_type _) as [|t ts] eqn:Et; [congruence|].
  cbn [is_nil]. rewrite E.
  destruct (forallb without_rows _) eqn:Ef.
  - split; [split; reflexivity | discriminate].
  - split.
    + split; [|discriminate]. intros H. symmetry in H.
      now apply no_matches_not_report in H.
    + intros _. split; [|reflexivity].
      intros Hnil. rewrite Hnil in E. discriminate E.
Qed.

Lemma no_matches_exactly_witness :
  result (fst (SearchNotesTool.invoke (B := scripted "backend") notes_dataset sepsis_search
                 (start (B := scripted "backend")
                    [Raised "discharge is offline"; Raised "radiology is offline"]))) =
    SearchNotesTool.report "backend" sepsis_search
      [SearchNotesTool.error_entry "discharge" "discharge is offline";
       SearchNotesTool.error_entry "radiology" "radiology is offline"].
Proof.
  destruct (no_matches_exactly (scripted "backend") notes_dataset sepsis_search
              [Raised "discharge is offline"; Raised "radiology is offline"])
    as (_ & H); [discriminate|].
  exact (proj2 (H eq_refl)).
Defined.

(** X6. A list_patient_notes call with a valid note_type answers with the
    no-notes-found message exactly when every selected table's query was
    quiet: it returned nothing to list, or what it returned or raised says
    "no rows" in some case.  So an exception whose text says "no rows" is
    reported as no notes found; any other exception makes the answer the
    listing, with the error inline. *)
Theorem no_notes_exactly (B : Backend) (dataset : DatasetDefinition)
    (params : ListPatientNotesTool.ListPatientNotesInput) (w : World B) :
  let run := ListPatientNotesTool.invoke dataset params (start w) in
  let info := get_backend_info B dataset w in
  let tables :=
    ListPatientNotesTool._get_tables_for_type (ListPatientNotesTool.note_type params) in
  let outcomes := map ev_outcome (issued (snd run)) in
  let results := concat (zip_with ListPatientNotesTool.appended tables outcomes) in
  tables <> [] ->
  (result (fst run) =
     ListPatientNotesTool.no_notes info (ListPatientNotesTool.subject_id params)
   <-> forallb quiet outcomes = true) /\
  (forallb quiet outcomes = false ->
   result (fst run) = ListPatientNotesTool.report info params results /\
   forall i table e,
     tables !! i = Some table -> outcomes !! i = Some (Raised e) ->
     In (ListPatientNotesTool.error_entry table e) results).
Proof.
  cbv zeta. intros Hne.
  destruct (list_invoke_log dataset params w) as (Hlen & _ & Hres).
  cbv zeta in Hlen, Hres.
  pose proof (list_results_quiet
    (ListPatientNotesTool._get_tables_for_type (ListPatientNotesTool.note_type params)) _
    (fun t => tables_are_note_tables (ListPatientNotesTool.note_type params) t) Hlen) as E.
  cbv zeta in E. rewrite Hres.
  destruct (ListPatientNotesTool._get_tables_for_type _) as [|t ts] eqn:Et; [congruence|].
  cbn [is_nil]. rewrite E.
  destruct (forallb quiet _) eqn:Ef.
  - split; [split; reflexivity | discriminate].
  - split.
    + split; [|discriminate]. intros H. symmetry in H.
      now apply no_notes_not_report in H.
    + intros _. split; [reflexivity|].
      intros i table e Hi Ho.
      eapply appended_in_results; [exact Hi | exact Ho | now left].
Qed.

Lemma no_notes_exactly_witness :
  result (fst (ListPatientNotesTool.invoke (B := scripted "backend") notes_dataset
                 unknown_patient
                 (start (B := scripted "backend")
                    [Raised "Catalog Error: NO ROWS source"; rows EmptyString]))) =
    ListPatientNotesTool.no_notes "backend" 999999999.
Proof.
  destruct (no_notes_exactly (scripted "backend") notes_dataset unknown_patient
              [Raised "Catalog Error: NO ROWS source"; rows EmptyString])
    as (H & _); [discriminate|].
  apply H. reflexivity.
Defined.

(** ** Bounds that are not positive *)

(** X7. When get_note finds a note and max_length is negative, the response
    is always the truncated form: the content loses its last -max_length
    characters (all of them when it has no more), and the header names the
    negative bound. *)
Theorem negative_max_length (B : Backend) (dataset : DatasetDefinition)
    (params : GetNoteTool.GetNoteInput) (w : World B) (payload : string) (n : Z) :
  let run := GetNoteTool.invoke dataset params (start w) in
  let info := get_backend_info B dataset w in
  let q := GetNoteTool.sql (replace_char "'" "''" (GetNoteTool.note_id params)) in
  let first := execute_query B (q "discharge") dataset w in
  let second := execute_query B (q "radiology") dataset (snd first) in
  let kept := take (Z.to_nat (len payload + n)) payload in
  note_of (fst first) = Some payload \/
  (note_of (fst first) = None /\ note_of (fst second) = Some payload) ->
  GetNoteTool.max_length params = Some n -> (n < 0)%Z ->
  result (fst run) =
    info +:+ nl +:+ "**Note (truncated to " +:+ of_int n +:+ " chars):**" +:+ nl
      +:+ kept +:+ nl +:+ nl +:+ "[...truncated...]" /\
  len kept = Z.max 0 (len payload + n) /\
  kept +:+ drop (Z.to_nat (len payload + n)) payload = payload.
Proof.
  cbv zeta. intros Hfound Hm Hneg.
  assert (E : result (fst (GetNoteTool.invoke dataset params (start w))) =
              GetNoteTool.render (get_backend_info B dataset w) params payload).
  { rewrite get_invoke_run. cbv zeta.
    destruct Hfound as [F|[F1 F2]]; [now rewrite F | now rewrite F1, F2]. }
  rewrite E. unfold GetNoteTool.render. rewrite Hm.
  assert (E0 : (n =? 0)%Z = false) by (apply Z.eqb_neq; lia).
  assert (E1 : (len payload >? n)%Z = true) by (apply Z.gtb_lt; unfold len; lia).
  assert (E2 : (n <? 0)%Z = true) by (apply Z.ltb_lt; lia).
  rewrite E0, E1. cbn [negb andb].
  unfold GetNoteTool.truncated_note, slice_to. rewrite E2.
  split; [reflexivity|]. split; [|apply take_drop].
  unfold len. rewrite length_take. lia.
Qed.

Lemma negative_max_length_witness :
  result (fst (GetNoteTool.invoke (B := scripted "backend") notes_dataset
                 {| GetNoteTool.note_id := "10000032-DS-21";
                    GetNoteTool.max_length := Some (-3)%Z |}
                 (start (B := scripted "backend") [rows "note_id 1234567890"]))) =
    "backend" +:+ nl +:+ "**Note (truncated to -3 chars):**" +:+ nl
      +:+ "note_id 1234567" +:+ nl +:+ nl +:+ "[...truncated...]".
Proof.
  destruct (negative_max_length (scripted "backend") notes_dataset
              {| GetNoteTool.note_id := "10000032-DS-21";
                 GetNoteTool.max_length := Some (-3)%Z |}
              [rows "note_id 1234567890"] "note_id 1234567890" (-3)%Z)
    as (H & _); [left; reflexivity | reflexivity | lia |].
  exact H.
Defined.

(** ** The shape of every response *)

(** X8. Every response of search_notes, get_note and list_patient_notes
    starts with the backend's information line followed by a line break,
    whatever the parameters and whatever the queries do. *)
Theorem responses_start_with_backend_info (B : Backend) (dataset : DatasetDefinition)
    (w : World B) :
  let info := get_backend_info B dataset w in
  (forall params, exists body,
      result (fst (SearchNotesTool.invoke dataset params (start w))) =
        info +:+ nl +:+ body) /\
  (forall params, exists body,
      result (fst (GetNoteTool.invoke dataset params (start w))) =
        info +:+ nl +:+ body) /\
  (forall params, exists body,
      result (fst (ListPatientNotesTool.invoke dataset params (start w))) =
        info +:+ nl +:+ body).
Proof.
  cbv zeta. split; [|split]; intros params.
  - destruct (search_invoke_log dataset params w) as (_ & _ & ->).
    destruct (is_nil _); [|destruct (is_nil _)]; eexists; reflexivity.
  - rewrite get_invoke_run. cbv zeta.
    destruct (note_of _) as [p1|]; [|destruct (note_of _) as [p2|]];
      cbn [fst result]; unfold GetNoteTool.render, GetNoteTool.not_found;
      try (destruct (GetNoteTool.max_length params) as [n|];
           [destruct (negb (n =? 0)%Z && _)|]);
      eexists; reflexivity.
  - destruct (list_invoke_log dataset params w) as (_ & _ & ->).
    destruct (is_nil _); [|destruct (_ || _)]; eexists; reflexivity.
Qed.

(** ** The tables a call reaches *)


(** ** The capability gate for any tool class *)

(** X10. For any tool class: a dataset outside a non-empty allow-list is
    incompatible whatever its modalities; an empty allow-list restricts
    nothing, like no allow-list; and a dataset that gains modalities, its
    name unchanged, stays compatible. *)
Theorem allow_list_and_modalities (tool : ToolClass) (dataset : DatasetDefinition) :
  (forall allowed,
      supported_datasets tool = Some allowed -> allowed ≠ ∅ ->
      name dataset ∉ allowed -> is_compatible tool dataset = false) /\
  (supported_datasets tool = Some ∅ ->
   is_compatible tool dataset =
   is_compatible {| tool_name := tool_name tool;
                    required_modalities := required_modalities tool;
                    supported_datasets := None |} dataset) /\
  (forall richer,
      name richer = name dataset -> modalities dataset ⊆ modalities richer ->
      is_compatible tool dataset = true -> is_compatible tool richer = true).
Proof.
  split; [|split].
  - intros allowed Hs Hne Hnot.
    destruct (is_compatible tool dataset) eqn:E; [|reflexivity].
    apply is_compatible_iff in E. destruct E as [E _].
    exfalso. apply Hnot. now apply (E allowed).
  - intros Hs. unfold is_compatible. rewrite Hs. cbn [supported_datasets].
    unfold truthy_set. now rewrite bool_decide_eq_true_2.
  - intros richer Hname Hsub Hc. apply is_compatible_iff in Hc as [Ha Hm].
    apply is_compatible_iff. split.
    + intros allowed Hs Hne. rewrite Hname. now apply Ha.
    + intros m Hin. apply Hsub, Hm, Hin.
Qed.

Lemma allow_list_and_modalities_witness :
  is_compatible {| tool_name := "search_notes";
                   required_modalities := {[ NOTES ]};
                   supported_datasets := Some {[ "mimic-iv-note" ]} |}
                {| name := "eicu"; modalities := {[ NOTES ]} |} = false.
Proof.
  destruct (allow_list_and_modalities
              {| tool_name := "search_notes";
                 required_modalities := {[ NOTES ]};
                 supported_datasets := Some {[ "mimic-iv-note" ]} |}
              {| name := "eicu"; modalities := {[ NOTES ]} |}) as (H & _).
  apply (H {[ "mimic-iv-note" ]} eq_refl).
  - intros He. assert (Hin : "mimic-iv-note" ∈ ({[ "mimic-iv-note" ]} : gset string))
      by now apply elem_of_singleton.
    rewrite He in Hin. now apply not_elem_of_empty in Hin.
  - cbn. intros Hin. apply elem_of_singleton in Hin. discriminate Hin.
Defined.

(** ** What the other statements compute *)

Lemma literal_quote_free (s : string) :
  SqlText.quote_free s = true -> Sql.literal s = s.
Proof.
  induction s as [|c s IH]; [reflexivity|].
  cbn [SqlText.quote_free Sql.literal]. intros H.
  apply andb_true_iff in H as [Hc Hs]. apply negb_true_iff in Hc.
  now rewrite Hc, (IH Hs).
Qed.







(** ** The adapters *)

(** A search or a listing makes at most two queries. *)
Lemma only_note_tables_queried_lengths (B : Backend) (dataset : DatasetDefinition)
    (w : World B) :
  (forall params,
      List.length (issued (snd (SearchNotesTool.invoke dataset params (start w)))) <= 2) /\
  (forall params,
      List.length (issued (snd (ListPatientNotesTool.invoke dataset params (start w)))) <= 2).
Proof.
  split; intros params.
  - destruct (search_invoke_log dataset params w) as (Hlen & _ & _).
    cbv zeta in Hlen. rewrite length_map in Hlen. rewrite Hlen.
    destruct (search_tables_for_type_cases (SearchNotesTool.note_type params))
      as [[_ ->]|[[_ ->]|[[_ ->]|[_ ->]]]]; cbn; lia.
  - destruct (list_invoke_log dataset params w) as (Hlen & _ & _).
    cbv zeta in Hlen. rewrite length_map in Hlen. rewrite Hlen.
    rewrite list_tables_for_type_eq.
    destruct (search_tables_for_type_cases (ListPatientNotesTool.note_type params))
      as [[_ ->]|[[_ ->]|[[_ ->]|[_ ->]]]]; cbn; lia.
Qed.

(** X14. The three adapters of the MCP server, for any verdict of the
    compatibility check: on an incompatible verdict they answer with the
    verdict's message and send no query; on a compatible one they answer
    with the tool's response for the arguments given; and in no case do
    they send more than two queries. *)
Theorem adapters_gate_before_query (B : Backend)
    (check : string -> DatasetDefinition -> McpServer.CompatibilityResult)
    (dataset : DatasetDefinition) (w : World B) :
  (forall query note_type limit snippet_length,
      let run := McpServer.search_notes check dataset query note_type limit
                   snippet_length (start w) in
      let verdict := check "search_notes" dataset in
      let tool := SearchNotesTool.invoke dataset
                    {| SearchNotesTool.query := query;
                       SearchNotesTool.note_type := note_type;
                       SearchNotesTool.limit := limit;
                       SearchNotesTool.snippet_length := snippet_length |} (start w) in
      (McpServer.compatible verdict = false ->
       run = (McpServer.error_message verdict, start w)) /\
      (McpServer.compatible verdict = true ->
       run = (result (fst tool), snd tool)) /\
      List.length (issued (snd run)) <= 2) /\
  (forall note_id max_length,
      let run := McpServer.get_note check dataset note_id max_length (start w) in
      let verdict := check "get_note" dataset in
      let tool := GetNoteTool.invoke dataset
                    {| GetNoteTool.note_id := note_id;
                       GetNoteTool.max_length := max_length |} (start w) in
      (McpServer.compatible verdict = false ->
       run = (McpServer.error_message verdict, start w)) /\
      (McpServer.compatible verdict = true ->
       run = (result (fst tool), snd tool)) /\
      List.length (issued (snd run)) <= 2) /\
  (forall subject_id note_type limit,
      let run := McpServer.list_patient_notes check dataset subject_id note_type
                   limit (start w) in
      let verdict := check "list_patient_notes" dataset in
      let tool := ListPatientNotesTool.invoke dataset
                    {| ListPatientNotesTool.subject_id := subject_id;
                       ListPatientNotesTool.note_type := note_type;
                       ListPatientNotesTool.limit := limit |} (start w) in
      (McpServer.compatible verdict = false ->
       run = (McpServer.error_message verdict, start w)) /\
      (McpServer.compatible verdict = true ->
       run = (result (fst tool), snd tool)) /\
      List.length (issued (snd run)) <= 2).
Proof.
  split; [|split].
  - intros query note_type limit snippet_length. cbv zeta.
    unfold McpServer.search_notes, bind, ret.
    destruct (McpServer.compatible (check "search_notes" dataset)) eqn:Ec; cbn [negb].
    + split; [discriminate|]. split.
      * intros _. now destruct (SearchNotesTool.invoke _ _ _).
      * destruct (only_note_tables_queried_lengths B dataset w) as [H _].
        specialize (H {| SearchNotesTool.query := query;
                         SearchNotesTool.note_type := note_type;
                         SearchNotesTool.limit := limit;
                         SearchNotesTool.snippet_length := snippet_length |}).
        now destruct (SearchNotesTool.invoke _ _ _).
    + split; [reflexivity|]. split; [discriminate|]. cbn. lia.
  - intros note_id max_length. cbv zeta.
    unfold McpServer.get_note, bind, ret.
    destruct (McpServer.compatible (check "get_note" dataset)) eqn:Ec; cbn [negb].
    + split; [discriminate|]. split.
      * intros _. now destruct (GetNoteTool.invoke _ _ _).
      * rewrite get_invoke_run. cbv zeta.
        destruct (note_of _); [|destruct (note_of _)]; cbn; lia.
    + split; [reflexivity|]. split; [discriminate|]. cbn. lia.
  - intros subject_id note_type limit. cbv zeta.
    unfold McpServer.list_patient_notes, bind, ret.
    destruct (McpServer.compatible (check "list_patient_notes" dataset)) eqn:Ec;
      cbn [negb].
    + split; [discriminate|]. split.
      * intros _. now destruct (ListPatientNotesTool.invoke _ _ _).
      * destruct (only_note_tables_queried_lengths B dataset w) as [_ H].
        specialize (H {| ListPatientNotesTool.subject_id := subject_id;
                         ListPatientNotesTool.note_type := note_type;
                         ListPatientNotesTool.limit := limit |}).
        now destruct (ListPatientNotesTool.invoke _ _ _).
    + split; [reflexivity|]. split; [discriminate|]. cbn. lia.
Qed.

Lemma adapters_gate_before_query_witness :
  McpServer.search_notes (B := scripted "backend")
    (fun _ _ => {| McpServer.compatible := false;
                   McpServer.error_message := "search_notes needs the notes modality" |})
    tabular_dataset "sepsis" "all" 5 300
    (start (B := scripted "backend") [rows "note_id 1"]) =
    ("search_notes needs the notes modality",
     start (B := scripted "backend") [rows "note_id 1"]).
Proof.
  destruct (adapters_gate_before_query (scripted "backend")
              (fun _ _ => {| McpServer.compatible := false;
                             McpServer.error_message :=
                               "search_notes needs the notes modality" |})
              tabular_dataset [rows "note_id 1"]) as (H & _).
  destruct (H "sepsis" "all" 5%Z 300%Z) as (H' & _).
  exact (H' eq_refl).
Defined.

(** ** What a snippet shows *)









